(** * Online Bookstore Insights: a model of [app.py]

    [app.py] is a Streamlit script: every interaction re-runs it from the
    top with the current widget values.  One run loads the book table
    (cached), turns it into a Spark DataFrame and renders the page picked
    in the sidebar.  The development below embeds

    - the Python notions the script relies on (exceptions, truthiness,
      f-string formatting),
    - the DataFrame operations it calls ([filter], [like], [orderBy],
      [groupBy], [avg], [count], [distinct], [limit]), with Spark's
      documented behaviour on nulls, name resolution and row order,
    - the seven pages, as scripts that emit display elements until they
      finish or raise.

    Numeric cells are exact rationals; characters are bytes. *)

From Stdlib Require Import String Ascii List Bool Arith NArith ZArith Lia.
From Stdlib Require Import QArith Qfield Permutation Sorted DecimalString.
Import ListNotations.

Local Close Scope Q_scope.
Local Open Scope nat_scope.
Local Open Scope string_scope.
Local Open Scope list_scope.

(** ** Python: exceptions and results *)

Module Py.

(** The exceptions a run of the script can raise. *)
Inductive exn : Type :=
| ColumnNotFound (c : string)      (* AnalysisException: a column name that resolves to nothing *)
| AmbiguousReference (c : string)  (* AnalysisException: a name that matches several columns *)
| InvalidPattern (p : string)      (* AnalysisException: a malformed LIKE pattern *)
| TypeError (msg : string)
| KeyError (key : string)
| OtherError (msg : string)        (* network and parse failures of the loader *)
| StopException.                   (* st.stop() *)

Inductive result (A : Type) : Type :=
| Ok (a : A)
| Raise (e : exn).

Arguments Ok {A} a.
Arguments Raise {A} e.

Definition bind {A B} (m : result A) (f : A -> result B) : result B :=
  match m with
  | Ok a => f a
  | Raise e => Raise e
  end.

(** [str(e)] *)
Definition str_exn (e : exn) : string :=
  match e with
  | ColumnNotFound c => "cannot resolve column " ++ c
  | AmbiguousReference c => "ambiguous reference " ++ c
  | InvalidPattern p => "invalid pattern " ++ p
  | TypeError msg => msg
  | KeyError k => k
  | OtherError msg => msg
  | StopException => ""
  end.

(** Truthiness of a [str]: only the empty string is falsy. *)
Definition truthy (s : string) : bool :=
  match s with
  | EmptyString => false
  | String _ _ => true
  end.

(** [str(n)] for a non-negative [int]. *)
Definition str_int (n : nat) : string :=
  NilZero.string_of_uint (Nat.to_uint n).

End Py.

Import Py.

Declare Scope result_scope.
Delimit Scope result_scope with result.
Notation "x <- m ;; k" := (bind m (fun x => k))
  (at level 61, m at next level, right associativity) : result_scope.
Local Open Scope result_scope.

(** ** Strings *)

(** [p] occurs in [s] at position 0. *)
Fixpoint startswith (p s : string) : bool :=
  match p with
  | EmptyString => true
  | String a p' =>
      match s with
      | EmptyString => false
      | String b s' => Ascii.eqb a b && startswith p' s'
      end
  end.

(** [p in s]: [p] occurs in [s] as a contiguous, case-sensitive run of
    characters. *)
Fixpoint occurs_in (p s : string) : bool :=
  startswith p s
  || match s with
     | EmptyString => false
     | String _ s' => occurs_in p s'
     end.

(** [s] ends with [q]. *)
Fixpoint endswith (q s : string) : bool :=
  String.eqb q s
  || match s with
     | EmptyString => false
     | String _ s' => endswith q s'
     end.

(** ASCII case folding, as used when column names are compared. *)
Definition lower (a : ascii) : ascii :=
  let n := nat_of_ascii a in
  if Nat.leb 65 n && Nat.leb n 90 then ascii_of_nat (n + 32) else a.

Fixpoint lowercase (s : string) : string :=
  match s with
  | EmptyString => EmptyString
  | String a s' => String (lower a) (lowercase s')
  end.

Definition equalsIgnoreCase (a b : string) : bool :=
  String.eqb (lowercase a) (lowercase b).

(** ** The DataFrame engine *)

Module Spark.

(** A cell: null, a string or a number. *)
Inductive Value : Type :=
| Null
| Str (s : string)
| Num (q : Q).

Definition Row : Type := list Value.

(** A [pandas.DataFrame]: column names and rows, held in memory. *)
Record Table : Type := mkTable {
  t_columns : list string;
  t_rows : list Row
}.

(** A [pyspark.sql.DataFrame]: the schema is known when the frame is
    built (a reference to a missing column raises there); the rows are
    computed when an action ([collect], [count], [toPandas]) runs, and an
    error of the computation is raised by the action. *)
Record DataFrame : Type := mkDataFrame {
  columns : list string;
  plan : result (list Row)
}.

(** What the script leaves to the engine: the order in which rows come
    out of an exchange (the shuffle behind [orderBy], [groupBy] and
    [distinct]), and the casts between strings and numbers. *)
Record Engine : Type := mkEngine {
  exchange : forall A : Type, list A -> list A;
  exchange_perm : forall (A : Type) (l : list A), Permutation (exchange A l) l;
  cast_double : string -> option Q;
  cast_string : Q -> string;
  load_csv : list string -> result DataFrame;   (* the files at these paths, parsed *)
  parse_csv : list string -> result DataFrame   (* these lines, parsed *)
}.

(** What [spark.read.csv] can be handed as its [path]. *)
Inductive PathArg : Type :=
| PathStr (p : string)
| PathList (ps : list string)
| PathRDD (lines : list string)
| PathObject (content : string).   (* any other object, e.g. an open file and its bytes *)

Arguments exchange e {A} l.

(** *** Name resolution

    The session of lines 11-14 keeps [spark.sql.caseSensitive] at its
    default: a name matches a column up to case; no match and several
    matches are both analysis errors. *)

Fixpoint positions (c : string) (cols : list string) (i : nat) : list nat :=
  match cols with
  | [] => []
  | n :: cols' =>
      if equalsIgnoreCase n c
      then i :: positions c cols' (S i)
      else positions c cols' (S i)
  end.

Definition resolve (cols : list string) (c : string) : result nat :=
  match positions c cols 0 with
  | [] => Raise (ColumnNotFound c)
  | [i] => Ok i
  | _ :: _ :: _ => Raise (AmbiguousReference c)
  end.

Definition cell (i : nat) (r : Row) : Value := nth i r Null.

(** *** Equality and order on cells *)

(** Equality as [distinct] and [groupBy] see it: nulls are equal. *)
Definition value_eqb (a b : Value) : bool :=
  match a, b with
  | Null, Null => true
  | Str s, Str t => String.eqb s t
  | Num p, Num q => Qeq_bool p q
  | _, _ => false
  end.

Fixpoint row_eqb (r1 r2 : Row) : bool :=
  match r1, r2 with
  | [], [] => true
  | a :: r1', b :: r2' => value_eqb a b && row_eqb r1' r2'
  | _, _ => false
  end.

(** Ascending order on non-null cells of one column (a column holds one
    type; numbers are put before strings to make the order total). *)
Definition value_leb (a b : Value) : bool :=
  match a, b with
  | Num p, Num q => Qle_bool p q
  | Str s, Str t => String.leb s t
  | Num _, Str _ => true
  | Str _, Num _ => false
  | Null, _ => true
  | _, Null => false
  end.

(** [desc(c)]: descending, nulls last.  [desc_nulls_last a b] says that
    a row with key [a] may stand before a row with key [b]. *)
Definition desc_nulls_last (a b : Value) : bool :=
  match a, b with
  | _, Null => true
  | Null, _ => false
  | _, _ => value_leb b a
  end.

(** *** LIKE patterns *)

Inductive like_token : Type :=
| AnyString            (* % *)
| AnyChar              (* _ *)
| Literal (c : ascii).

Definition is_escape (c : ascii) : bool := Ascii.eqb c "\"%char.
Definition is_percent (c : ascii) : bool := Ascii.eqb c "%"%char.
Definition is_underscore (c : ascii) : bool := Ascii.eqb c "_"%char.

(** The pattern read left to right: the escape character makes the
    following [_], [%] or escape character literal, and is an error
    before anything else or at the end. *)
Fixpoint parse_like (whole p : string) : result (list like_token) :=
  match p with
  | EmptyString => Ok []
  | String c rest =>
      if is_escape c then
        match rest with
        | EmptyString => Raise (InvalidPattern whole)
        | String d rest' =>
            if is_underscore d || is_percent d || is_escape d
            then (ts <- parse_like whole rest' ;; Ok (Literal d :: ts))
            else Raise (InvalidPattern whole)
        end
      else if is_underscore c then (ts <- parse_like whole rest ;; Ok (AnyChar :: ts))
      else if is_percent c then (ts <- parse_like whole rest ;; Ok (AnyString :: ts))
      else (ts <- parse_like whole rest ;; Ok (Literal c :: ts))
  end.

Definition escapeLike (p : string) : result (list like_token) := parse_like p p.

(** The whole string must match the whole pattern. *)
Fixpoint like_match (ts : list like_token) (s : string) {struct ts} : bool :=
  match ts with
  | [] => match s with EmptyString => true | String _ _ => false end
  | Literal c :: ts' =>
      match s with
      | EmptyString => false
      | String d s' => Ascii.eqb c d && like_match ts' s'
      end
  | AnyChar :: ts' =>
      match s with
      | EmptyString => false
      | String _ s' => like_match ts' s'
      end
  | AnyString :: ts' =>
      (fix skip (s : string) : bool :=
         like_match ts' s
         || match s with
            | EmptyString => false
            | String _ s' => skip s'
            end) s
  end.

(** SQL's three-valued [OR]. *)
Definition or3 (a b : option bool) : option bool :=
  match a, b with
  | Some true, _ => Some true
  | _, Some true => Some true
  | Some false, Some false => Some false
  | _, _ => None
  end.

(** [filter] keeps the rows whose condition is true, not null. *)
Definition holds (b : option bool) : bool :=
  match b with
  | Some true => true
  | _ => false
  end.

(** *** Sorting and grouping *)

(** A stable insertion sort: [x] is put before the first element that
    may not stand before it, so equal keys keep the order of the input. *)
Fixpoint insert_by {A : Type} (before : A -> A -> bool) (x : A) (l : list A) : list A :=
  match l with
  | [] => [x]
  | y :: l' => if before x y then x :: y :: l' else y :: insert_by before x l'
  end.

Fixpoint sort_by {A : Type} (before : A -> A -> bool) (l : list A) : list A :=
  match l with
  | [] => []
  | x :: l' => insert_by before x (sort_by before l')
  end.

(** One more member of group [k]: a known key is counted where it
    stands, a new key opens a group at the end. *)
Fixpoint bump (k : Value) (acc : list (Value * nat)) : list (Value * nat) :=
  match acc with
  | [] => [(k, 1)]
  | (k', n) :: acc' =>
      if value_eqb k k' then (k', S n) :: acc' else (k', n) :: bump k acc'
  end.

Definition group_counts (keys : list Value) : list (Value * nat) :=
  fold_left (fun acc k => bump k acc) keys [].

(** The first row of each class of equal rows. *)
Fixpoint dedupe (seen : list Row) (rs : list Row) : list Row :=
  match rs with
  | [] => []
  | r :: rs' =>
      if existsb (row_eqb r) seen then dedupe seen rs'
      else r :: dedupe (r :: seen) rs'
  end.

(** The buffer of the [avg] aggregate: a running sum and a count of the
    non-null inputs. *)
Definition avg_update (buf : Q * nat) (x : option Q) : Q * nat :=
  match x with
  | Some q => ((fst buf + q)%Q, S (snd buf))
  | None => buf
  end.

Definition avg_eval (buf : Q * nat) : option Q :=
  match snd buf with
  | O => None
  | S _ => Some (fst buf / inject_Z (Z.of_nat (snd buf)))%Q
  end.

Definition of_nat (n : nat) : Value := Num (inject_Z (Z.of_nat n)).

(** *** Column expressions and DataFrame operations *)

Section Operations.

Variable E : Engine.

(** A cell read as a string, as [like] does. *)
Definition as_string (v : Value) : option string :=
  match v with
  | Null => None
  | Str s => Some s
  | Num q => Some (cast_string E q)
  end.

(** A cell read as a number, as [avg] does. *)
Definition as_double (v : Value) : option Q :=
  match v with
  | Null => None
  | Num q => Some q
  | Str s => cast_double E s
  end.

(** A column expression of type [T]: given the frame's schema it either
    fails to resolve, or yields what the execution will run, which either
    fails to start or maps each row to a [T]. *)
Definition Column (T : Type) : Type := list string -> result (result (Row -> T)).

(** [col(c)] *)
Definition col (c : string) : Column Value :=
  fun cols => i <- resolve cols c ;; Ok (Ok (cell i)).

(** [e.like(pattern)]: null on a null cell. *)
Definition like (e : Column Value) (pattern : string) : Column (option bool) :=
  fun cols =>
    f <- e cols ;;
    Ok (g <- f ;;
        ts <- escapeLike pattern ;;
        Ok (fun r => option_map (like_match ts) (as_string (g r)))).

(** [a | b] *)
Definition or_ (a b : Column (option bool)) : Column (option bool) :=
  fun cols =>
    fa <- a cols ;;
    fb <- b cols ;;
    Ok (ga <- fa ;; gb <- fb ;; Ok (fun r => or3 (ga r) (gb r))).

(** [spark.createDataFrame(pdf)] *)
Definition createDataFrame (pdf : Table) : DataFrame :=
  mkDataFrame (t_columns pdf) (Ok (t_rows pdf)).

(** [df.filter(cond)]: rows keep their order. *)
Definition filter (df : DataFrame) (cond : Column (option bool)) : result DataFrame :=
  p <- cond (columns df) ;;
  Ok (mkDataFrame (columns df)
        (rs <- plan df ;; f <- p ;; Ok (List.filter (fun r => holds (f r)) rs))).

(** [df.limit(n)] *)
Definition limit (n : nat) (df : DataFrame) : DataFrame :=
  mkDataFrame (columns df) (rs <- plan df ;; Ok (firstn n rs)).

(** [df.toPandas()] *)
Definition toPandas (df : DataFrame) : result Table :=
  rs <- plan df ;; Ok (mkTable (columns df) rs).

(** [df.count()] *)
Definition count (df : DataFrame) : result nat :=
  rs <- plan df ;; Ok (length rs).

(** [df.select(c)]: the column of the result bears the name as written. *)
Definition select (df : DataFrame) (c : string) : result DataFrame :=
  i <- resolve (columns df) c ;;
  Ok (mkDataFrame [c]
        (rs <- plan df ;; Ok (map (fun r => [cell i r]) rs))).

(** [df.distinct()] *)
Definition distinct (df : DataFrame) : DataFrame :=
  mkDataFrame (columns df) (rs <- plan df ;; Ok (exchange E (dedupe [] rs))).

(** [df.select(avg(e)).collect()[0][0]]: [None] is Python's [None]. *)
Definition select_avg (df : DataFrame) (e : Column Value) : result (option Q) :=
  f <- e (columns df) ;;
  rs <- plan df ;;
  g <- f ;;
  Ok (avg_eval (fold_left avg_update (map (fun r => as_double (g r)) rs) (0%Q, 0))).

(** [df.select(count(e)).collect()[0][0]]: the non-null cells. *)
Definition select_count (df : DataFrame) (e : Column Value) : result nat :=
  f <- e (columns df) ;;
  rs <- plan df ;;
  g <- f ;;
  Ok (length (List.filter (fun r => negb (value_eqb (g r) Null)) rs)).

(** [df.groupBy(c).agg(count("*").alias(name))]: one row per key, the
    null key included, in the order the exchange delivers them. *)
Definition groupBy_count (df : DataFrame) (c name : string) : result DataFrame :=
  i <- resolve (columns df) c ;;
  Ok (mkDataFrame [c; name]
        (rs <- plan df ;;
         Ok (exchange E
               (map (fun g => [fst g; of_nat (snd g)])
                    (group_counts (map (cell i) rs)))))).

(** [df.orderBy(desc(c))]: the rows cross an exchange and are sorted. *)
Definition orderBy_desc (df : DataFrame) (c : string) : result DataFrame :=
  i <- resolve (columns df) c ;;
  Ok (mkDataFrame (columns df)
        (rs <- plan df ;;
         Ok (sort_by (fun a b => desc_nulls_last (cell i a) (cell i b))
               (exchange E rs)))).

(** [spark.read.csv(path, header=True, inferSchema=True)]: PySpark takes a
    path, a list of paths or an RDD of lines, and raises a [TypeError]
    for anything else before it reads a byte (the message is that of
    PySpark 3). *)
Definition read_csv (path : PathArg) : result DataFrame :=
  match path with
  | PathStr p => load_csv E [p]
  | PathList ps => load_csv E ps
  | PathRDD lines => parse_csv E lines
  | PathObject _ => Raise (TypeError "path can be only string, list or RDD")
  end.

End Operations.

End Spark.

(** ** Streamlit: display elements and scripts *)

Module St.

Import Spark.

(** A Python value shown by a metric: an [int] or a [str]. *)
Inductive PyVal : Type :=
| PyInt (n : nat)
| PyStr (s : string).

(** [str(v)] *)
Definition str (v : PyVal) : string :=
  match v with
  | PyInt n => str_int n
  | PyStr s => s
  end.

Inductive Chart : Type :=
| barh (labels values : list Value)
| hist (values : list Value) (bins : nat).

(** What a run hands to the page, in order. *)
Inductive Element : Type :=
| st_title (s : string)
| st_sidebar_title (s : string)
| st_markdown (s : string)
| st_subheader (s : string)
| st_write (s : string)
| st_dataframe (t : Table)
| st_metric (label : string) (value : PyVal)
| st_pyplot (c : Chart)
| st_success (s : string)
| st_warning (s : string)
| st_error (s : string).

(** A script: the elements emitted so far, and how it went on. *)
Definition script (A : Type) : Type := (list Element * result A)%type.

Definition ret {A} (a : A) : script A := ([], Ok a).

Definition sbind {A B} (m : script A) (f : A -> script B) : script B :=
  match snd m with
  | Ok a => (fst m ++ fst (f a), snd (f a))
  | Raise e => (fst m, Raise e)
  end.

Definition emit (e : Element) : script unit := ([e], Ok tt).

Definition lift {A} (r : result A) : script A := ([], r).

(** [st.stop()] *)
Definition stop : script unit := ([], Raise StopException).

End St.

Import St.

Declare Scope script_scope.
Delimit Scope script_scope with script.
Notation "x <- m ;; k" := (sbind m (fun x => k))
  (at level 61, m at next level, right associativity) : script_scope.
Notation "m ;; k" := (sbind m (fun _ => k))
  (at level 61, right associativity) : script_scope.

(** ** The script [app.py] *)

Module App.

Import Spark.

(** *** pandas *)

(** [pd.DataFrame()] *)
Definition empty_table : Table := mkTable [] [].

(** [pdf.empty]: no rows or no columns. *)
Definition empty (pdf : Table) : bool :=
  match t_rows pdf, t_columns pdf with
  | [], _ => true
  | _, [] => true
  | _, _ => false
  end.

(** [pdf.head(n)] *)
Definition head (n : nat) (pdf : Table) : Table :=
  mkTable (t_columns pdf) (firstn n (t_rows pdf)).

Fixpoint index_of (c : string) (cols : list string) : option nat :=
  match cols with
  | [] => None
  | n :: cols' => if String.eqb n c then Some 0 else option_map S (index_of c cols')
  end.

(** [pdf[c]]: the column of that exact name. *)
Definition getitem (pdf : Table) (c : string) : result (list Value) :=
  match index_of c (t_columns pdf) with
  | Some i => Ok (map (cell i) (t_rows pdf))
  | None => Raise (KeyError c)
  end.

(** [c in df.columns] *)
Definition has_column (c : string) (df : DataFrame) : bool :=
  existsb (String.eqb c) (columns df).

(** *** The widgets' values for one run *)

Inductive Page : Type :=
| Home | Dashboard | Search | TopRated | Insights | UploadData | Feedback.

Record Inputs : Type := mkInputs {
  page : Page;               (* the sidebar radio *)
  search : string;           (* the Search page's text input *)
  uploaded : option string;  (* the Upload page's file, with its bytes *)
  name : string;             (* the Feedback page's name *)
  feedback : string;         (* the Feedback page's text *)
  submit : bool              (* whether Submit was pressed *)
}.

Section Script.

Variable E : Engine.

(** [f"{x:.2f}"] on a float. *)
Variable format_2f : Q -> string.

Local Open Scope script_scope.

(** [f"{avg_rating:.2f}"]: [None] does not take a float format. *)
Definition format_avg (avg_rating : option Q) : result string :=
  match avg_rating with
  | Some q => Ok (format_2f q)
  | None => Raise (TypeError "unsupported format string passed to NoneType.__format__")
  end.

(** Lines 19-29, under [st.cache_data]: the first run fetches, later runs
    replay the stored value and the elements emitted with it. *)
Definition load_data (cache : option (Table * list Element)) (fetch : result Table)
  : option (Table * list Element) * (list Element * Table) :=
  match cache with
  | Some (pdf, shown) => (cache, (shown, pdf))
  | None =>
      match fetch with
      | Ok pdf => (Some (pdf, []), ([], pdf))
      | Raise e =>
          let shown :=
            [st_error ("❌ Failed to load data from Supabase: " ++ str_exn e)] in
          (Some (empty_table, shown), (shown, empty_table))
      end
  end.

(** Lines 51-63. *)
Definition home : script unit :=
  emit (st_title "📚 Online Bookstore Data Insights") ;;
  emit (st_markdown "
    Welcome to **Online Bookstore Insights**, a PySpark + Streamlit dashboard
    for exploring and analyzing book datasets efficiently.

    ### 🔹 Features:
    - Average ratings and summary metrics
    - Search books by title or author
    - Top-rated and bestselling books
    - Author-based insights
    - Upload and explore your own dataset
    ").

(** Line 75: [df.select(avg(col(c))).collect()[0][0]]. *)
Definition average (df : DataFrame) (c : string) : result (option Q) :=
  select_avg E df (col c).

(** Line 77: [df.select(c).distinct().count()]. *)
Definition distinct_count (df : DataFrame) (c : string) : result nat :=
  bind (select df c) (fun d => count (distinct E d)).

(** Lines 79-80: the count of the non-null [ratings_count] cells when the
    frame has a column of that name, else the marker. *)
Definition bestsellers (df : DataFrame) : result PyVal :=
  let bestseller_col :=
    if has_column "ratings_count" df then Some "ratings_count" else None in
  match bestseller_col with
  | Some c => bind (select_count df (col c)) (fun n => Ok (PyInt n))
  | None => Ok (PyStr "N/A")
  end.

(** Lines 68-85. *)
Definition dashboard (pdf : Table) (df : DataFrame) : script unit :=
  emit (st_title "📊 Book Ratings Dashboard") ;;
  emit (st_subheader "Dataset Preview") ;;
  emit (st_dataframe (head 10 pdf)) ;;
  emit (st_subheader "📈 Summary Statistics") ;;
  avg_rating <- lift (average df "average_rating") ;;
  total_books <- lift (count df) ;;
  total_authors <- lift (distinct_count df "authors") ;;
  bestseller_count <- lift (bestsellers df) ;;
  shown_avg <- lift (format_avg avg_rating) ;;
  emit (st_metric "⭐ Average Rating" (PyStr shown_avg)) ;;
  emit (st_metric "📚 Total Books" (PyInt total_books)) ;;
  emit (st_metric "🏆 Bestsellers" (PyStr (str bestseller_count))).

(** Lines 93-98: the filter of the Search page. *)
Definition search_filter (df : DataFrame) (c1 c2 term : string) : result DataFrame :=
  filter df (or_ (like E (col c1) ("%" ++ term ++ "%"))
                 (like E (col c2) ("%" ++ term ++ "%"))).

(** Lines 90-100. *)
Definition search_page (df : DataFrame) (term : string) : script unit :=
  emit (st_title "🔍 Search Books by Name or Author") ;;
  if truthy term then
    results <- lift (search_filter df "title" "authors" term) ;;
    emit (st_write ("Results for: **" ++ term ++ "**")) ;;
    shown <- lift (toPandas (limit 20 results)) ;;
    emit (st_dataframe shown)
  else ret tt.

(** Line 107: [df.orderBy(desc(c)).limit(k)]. *)
Definition top_books (df : DataFrame) (c : string) (k : nat) : result DataFrame :=
  bind (orderBy_desc E df c) (fun sorted => Ok (limit k sorted)).

(** Lines 105-117. *)
Definition top_rated (df : DataFrame) : script unit :=
  emit (st_title "🏆 Top Rated Books") ;;
  top <- lift (top_books df "average_rating" 20) ;;
  shown <- lift (toPandas top) ;;
  emit (st_dataframe shown) ;;
  emit (st_subheader "Top 10 Books by Rating") ;;
  top_pd <- lift (toPandas (limit 10 top)) ;;
  titles <- lift (getitem top_pd "title") ;;
  ratings <- lift (getitem top_pd "average_rating") ;;
  emit (st_pyplot (barh titles ratings)).

(** Line 126:
    [df.groupBy(c).agg(count("*").alias("book_count")).orderBy(desc("book_count")).limit(k)]. *)
Definition top_authors (df : DataFrame) (c : string) (k : nat) : result DataFrame :=
  bind (groupBy_count E df c "book_count") (fun grouped =>
  bind (orderBy_desc E grouped "book_count") (fun sorted =>
  Ok (limit k sorted))).

(** Lines 122-142. *)
Definition insights (pdf : Table) (df : DataFrame) : script unit :=
  emit (st_title "📈 Analytical Insights") ;;
  emit (st_subheader "👩‍💻 Top Authors by Number of Books") ;;
  top <- lift (top_authors df "authors" 10) ;;
  shown <- lift (toPandas top) ;;
  emit (st_dataframe shown) ;;
  top_pd <- lift (toPandas top) ;;
  authors <- lift (getitem top_pd "authors") ;;
  counts <- lift (getitem top_pd "book_count") ;;
  emit (st_pyplot (barh authors counts)) ;;
  emit (st_subheader "⭐ Rating Distribution") ;;
  ratings <- lift (getitem pdf "average_rating") ;;
  emit (st_pyplot (hist ratings 20)).

(** Lines 147-155: the uploaded file object itself is what
    [spark.read.csv] is handed. *)
Definition upload (uploaded : option string) : script unit :=
  emit (st_title "📥 Upload a New CSV Dataset") ;;
  match uploaded with
  | Some content =>
      new_df <- lift (read_csv E (PathObject content)) ;;
      emit (st_success "✅ File uploaded successfully!") ;;
      emit (st_write "Preview:") ;;
      shown <- lift (toPandas (limit 10 new_df)) ;;
      emit (st_dataframe shown)
  | None => ret tt
  end.

(** Lines 160-169. *)
Definition feedback_page (name feedback : string) (submit : bool) : script unit :=
  emit (st_title "💬 Feedback Form") ;;
  if submit then
    if truthy name && truthy feedback
    then emit (st_success "Thank you for your feedback! 💚")
    else emit (st_warning "Please fill in all fields.")
  else ret tt.

(** Lines 51-169: the chain of tests on the page. *)
Definition render (pdf : Table) (df : DataFrame) (i : Inputs) : script unit :=
  match page i with
  | Home => home
  | Dashboard => dashboard pdf df
  | Search => search_page df (search i)
  | TopRated => top_rated df
  | Insights => insights pdf df
  | UploadData => upload (uploaded i)
  | Feedback => feedback_page (name i) (feedback i) (submit i)
  end.

(** One run of the script: the cache after it, and what it showed. *)
Definition app (cache : option (Table * list Element)) (fetch : result Table) (i : Inputs)
  : option (Table * list Element) * script unit :=
  let loaded := load_data cache fetch in
  let pdf := snd (snd loaded) in
  (fst loaded,
   ((fst (snd loaded), Ok tt) ;;
    if empty pdf then stop
    else
      emit (st_sidebar_title "📚 Online Bookstore Insights") ;;
      render pdf (createDataFrame pdf) i)).

End Script.

End App.

(** ** The specification's vocabulary *)

Module Spec.

Import Spark App.

(** The non-null members of a list of optional values. *)
Fixpoint somes {A : Type} (l : list (option A)) : list A :=
  match l with
  | [] => []
  | Some a :: l' => a :: somes l'
  | None :: l' => somes l'
  end.

Definition sum (l : list Q) : Q := fold_right Qplus 0%Q l.

(** The arithmetic mean; there is none of no values. *)
Definition mean (l : list Q) : option Q :=
  match l with
  | [] => None
  | _ :: _ => Some (sum l / inject_Z (Z.of_nat (length l)))%Q
  end.

(** Equality of optional numbers, up to the fraction that writes them. *)
Definition same_number (a b : option Q) : Prop :=
  match a, b with
  | Some x, Some y => (x == y)%Q
  | None, None => True
  | _, _ => False
  end.

(** The numeric values of column [i], nulls left out. *)
Definition numbers (E : Engine) (i : nat) (rs : list Row) : list Q :=
  somes (map (fun r => as_double E (cell i r)) rs).

(** No column of the schema answers to the name [c]. *)
Definition lacks (cols : list string) (c : string) : Prop :=
  forall n, In n cols -> equalsIgnoreCase n c = false.


(** [s] is [a ++ p ++ b] for some [a] and [b]. *)
Definition substring_of (p s : string) : Prop :=
  exists a b : string, s = (a ++ p ++ b)%string.

(** The term holds none of the characters a LIKE pattern reads
    specially. *)
Fixpoint plain (term : string) : bool :=
  match term with
  | EmptyString => true
  | String c rest =>
      negb (is_escape c) && negb (is_underscore c) && negb (is_percent c) && plain rest
  end.

(** The pattern that matches exactly the characters of [term]. *)
Fixpoint literals (term : string) : list like_token :=
  match term with
  | EmptyString => []
  | String c rest => Literal c :: literals rest
  end.

(** The term occurs literally in the cell's string value. *)
Definition cell_contains (E : Engine) (term : string) (v : Value) : bool :=
  match as_string E v with
  | Some s => occurs_in term s
  | None => false
  end.

(** The cell's string value ends with [q]. *)
Definition cell_endswith (E : Engine) (q : string) (v : Value) : bool :=
  match as_string E v with
  | Some s => endswith q s
  | None => false
  end.

Definition non_null (v : Value) : bool := negb (value_eqb v Null).

(** The rows with key [v], in order. *)
Definition with_key (key : Row -> Value) (v : Value) (rs : list Row) : list Row :=
  List.filter (fun r => value_eqb (key r) v) rs.


(** A metric showing the text [v] is among the elements. *)
Definition renders_metric (v : string) (out : list Element) : Prop :=
  exists label value, In (st_metric label value) out /\ str value = v.

(** What the Dashboard has emitted when it reaches line 75: the
    preview of the first ten rows between its headings. *)
Definition dashboard_head (D : Table) : list Element :=
  [st_title "📊 Book Ratings Dashboard"; st_subheader "Dataset Preview";
   st_dataframe (App.head 10 D); st_subheader "📈 Summary Statistics"].

(** The sidebar's heading, emitted before every page. *)
Definition sidebar : Element := st_sidebar_title "📚 Online Bookstore Insights".

(** How many of the keys equal [v]. *)
Definition occurrences (v : Value) (keys : list Value) : nat :=
  length (List.filter (fun k => value_eqb k v) keys).

(** The groups whose key equals [v]. *)
Definition groups_of (v : Value) (groups : list (Value * nat)) : list (Value * nat) :=
  List.filter (fun g => value_eqb (fst g) v) groups.

(** A value has a group among [acc]. *)
Definition grouped (v : Value) (acc : list (Value * nat)) : bool :=
  existsb (fun e => value_eqb v (fst e)) acc.

(** The term is made of percent signs only. *)
Fixpoint only_percent (term : string) : bool :=
  match term with
  | EmptyString => true
  | String c rest => is_percent c && only_percent rest
  end.



(** Two groups have different keys. *)
Definition differ (a b : Value * nat) : Prop := value_eqb (fst a) (fst b) = false.

(** What holds of the groups [acc] once the keys [seen] have gone in:
    their keys differ pairwise, each count is the number of keys seen that
    equal the group's, and a value that no group has was not seen. *)
Definition counted (seen : list Value) (acc : list (Value * nat)) : Prop :=
  ForallOrdPairs differ acc
  /\ (forall e, In e acc -> snd e = occurrences (fst e) seen /\ 0 < snd e)
  /\ (forall v, Forall (fun e => value_eqb v (fst e) = false) acc ->
                occurrences v seen = 0).

(** A row of the grouped frame. *)
Definition group_row (g : Value * nat) : Row := [fst g; of_nat (snd g)].


End Spec.

(** ** Two engines and some tables to run the script on *)

Module Samples.

Import Spark App.

Definition no_file (_ : list string) : result DataFrame :=
  Raise (OtherError "no such file").

(** An engine whose exchanges keep the order of their input. *)
Definition in_order : Engine :=
  mkEngine (fun _ l => l) (fun _ l => Permutation_refl l)
           (fun _ => None) (fun _ => "") no_file no_file.

(** An engine whose exchanges deliver their input back to front. *)
Definition reversing : Engine :=
  mkEngine (fun _ l => rev l) (fun _ l => Permutation_sym (Permutation_rev l))
           (fun _ => None) (fun _ => "") no_file no_file.

(** An engine whose exchanges deliver the first row last. *)
Definition rotate {A : Type} (l : list A) : list A :=
  match l with
  | [] => []
  | x :: rest => rest ++ [x]
  end.

Lemma rotate_perm (A : Type) (l : list A) : Permutation (rotate l) l.
Proof.
  destruct l as [|x rest]; [constructor|].
  apply Permutation_sym, Permutation_cons_append.
Defined.

Definition rotating : Engine :=
  mkEngine (@rotate) rotate_perm (fun _ => None) (fun _ => "") no_file no_file.

Definition two_decimals (_ : Q) : string := "4.00".

(** The three books of the specification's scenario. *)
Definition book_A : Row := [Str "A"; Str "X"; Num (9 # 2)].
Definition book_B : Row := [Str "B"; Str "Y"; Num (9 # 2)].
Definition book_C : Row := [Str "C"; Str "X"; Num (3 # 1)].

Definition books : Table :=
  mkTable ["title"; "authors"; "average_rating"] [book_A; book_B; book_C].

(** A table without the [average_rating] column. *)
Definition unrated : Table :=
  mkTable ["title"; "authors"] [[Str "A"; Str "X"]; [Str "B"; Str "Y"]].


(** A table with one row that has neither title nor author. *)
Definition anonymous : Table :=
  mkTable ["title"; "authors"; "average_rating"]
          [book_A; [Null; Null; Num (4 # 1)]].


(** Three books by three authors. *)
Definition singles : Table :=
  mkTable ["title"; "authors"]
          [[Str "A"; Str "X"]; [Str "B"; Str "Y"]; [Str "C"; Str "Z"]].

(** The three books under a capitalised title column. *)
Definition retitled : Table :=
  mkTable ["Title"; "authors"; "average_rating"] [book_A; book_B; book_C].

(** A table without the [authors] column. *)
Definition authorless : Table :=
  mkTable ["title"; "average_rating"] [[Str "A"; Num (9 # 2)]].

(** A table that loads with its header and no row. *)
Definition header_only : Table :=
  mkTable ["title"; "authors"; "average_rating"] [].

(** The widgets at rest, on a given page. *)
Definition on_page (p : Page) : Inputs := mkInputs p "" None "" "" false.

End Samples.

(** * Properties *)

Import Spark App Spec Samples.


(** ** Name resolution *)

Section Resolution.


Lemma positions_lacks (c : string) (cols : list string) (i : nat) :
  lacks cols c -> positions c cols i = [].
Proof.
  revert i. induction cols as [|n cols IH]; intros i H; simpl; [reflexivity|].
  rewrite (H n (or_introl eq_refl)).
  apply IH. intros m Hm. apply H. now right.
Qed.


Lemma resolve_lacks (cols : list string) (c : string) :
  lacks cols c -> resolve cols c = Raise (ColumnNotFound c).
Proof. intros H. unfold resolve. now rewrite positions_lacks. Qed.

Lemma resolve_Ok_found (cols : list string) (c : string) (i : nat) :
  resolve cols c = Ok i -> ~ lacks cols c.
Proof.
  intros H L. rewrite (resolve_lacks _ _ L) in H. discriminate.
Qed.




End Resolution.

(** ** The average *)

Section Average.

Variable E : Engine.

Lemma avg_buffer_count (xs : list (option Q)) (s : Q) (n : nat) :
  snd (fold_left avg_update xs (s, n)) = n + length (somes xs).
Proof.
  revert s n. induction xs as [|[q|] xs IH]; intros s n; simpl.
  - lia.
  - rewrite IH. lia.
  - apply IH.
Qed.

Lemma avg_buffer_sum (xs : list (option Q)) (s : Q) (n : nat) :
  (fst (fold_left avg_update xs (s, n)) == s + sum (somes xs))%Q.
Proof.
  revert s n. induction xs as [|[q|] xs IH]; intros s n; simpl.
  - ring.
  - rewrite IH. unfold sum. simpl. ring.
  - apply IH.
Qed.

(** The aggregate's result is the mean of the non-null inputs. *)
Lemma avg_eval_mean (xs : list (option Q)) :
  same_number (avg_eval (fold_left avg_update xs (0%Q, 0))) (mean (somes xs)).
Proof.
  unfold avg_eval.
  pose proof (avg_buffer_count xs 0%Q 0) as Hc.
  pose proof (avg_buffer_sum xs 0%Q 0) as Hs.
  destruct (fold_left avg_update xs (0%Q, 0)) as [s n]. simpl in *.
  destruct (somes xs) as [|q l] eqn:Hl; simpl in *.
  - subst n. exact I.
  - subst n. cbn [Nat.add snd fst same_number length]. rewrite Hs.
    apply Qdiv_comp; [ring | reflexivity].
Qed.

Lemma average_resolved (D : Table) (c : string) (i : nat) :
  resolve (t_columns D) c = Ok i ->
  exists m, average E (createDataFrame D) c = Ok m
            /\ same_number m (mean (numbers E i (t_rows D))).
Proof.
  intros Hi. unfold average, select_avg, col, createDataFrame. cbn [columns plan].
  rewrite Hi. cbn [bind]. eexists. split; [reflexivity|]. apply avg_eval_mean.
Qed.

Lemma average_lacks (D : Table) (c : string) :
  lacks (t_columns D) c ->
  average E (createDataFrame D) c = Raise (ColumnNotFound c).
Proof.
  intros Hl. unfold average, select_avg, col, createDataFrame. cbn [columns plan].
  now rewrite (resolve_lacks _ _ Hl).
Qed.

End Average.

(** ** The order on cells *)

Section CellOrder.



Lemma string_leb_trans (s1 s2 s3 : string) :
  String.leb s1 s2 = true -> String.leb s2 s3 = true -> String.leb s1 s3 = true.
Proof.
  unfold String.leb. revert s2 s3.
  induction s1 as [|a s1 IH]; intros [|b s2] [|c s3]; simpl; try congruence.
  unfold Ascii.compare.
  destruct (N.compare_spec (N_of_ascii a) (N_of_ascii b)) as [Hab|Hab|Hab];
    destruct (N.compare_spec (N_of_ascii b) (N_of_ascii c)) as [Hbc|Hbc|Hbc];
    destruct (N.compare_spec (N_of_ascii a) (N_of_ascii c)) as [Hac|Hac|Hac];
    try congruence; try lia.
  apply IH.
Qed.

Lemma value_eqb_refl (v : Value) : value_eqb v v = true.
Proof.
  destruct v; simpl; [reflexivity | apply String.eqb_refl | apply Qeq_bool_refl].
Qed.

Lemma value_eqb_sym (a b : Value) : value_eqb a b = value_eqb b a.
Proof.
  destruct a, b; simpl; try reflexivity; [apply String.eqb_sym | apply Qeq_bool_comm].
Qed.

Lemma value_eqb_trans (a b c : Value) :
  value_eqb a b = true -> value_eqb b c = true -> value_eqb a c = true.
Proof.
  destruct a, b, c; simpl; try congruence.
  - rewrite !String.eqb_eq. congruence.
  - apply Qeq_bool_trans.
Qed.

Lemma desc_nulls_last_total (a b : Value) :
  desc_nulls_last a b = true \/ desc_nulls_last b a = true.
Proof.
  destruct a as [|s|p], b as [|t|q]; simpl; auto.
  - destruct (String.leb_total s t); auto.
  - rewrite !Qle_bool_iff. destruct (Qlt_le_dec p q) as [H|H]; [right|left].
    + now apply Qlt_le_weak.
    + assumption.
Qed.

Lemma desc_nulls_last_trans (a b c : Value) :
  desc_nulls_last a b = true -> desc_nulls_last b c = true ->
  desc_nulls_last a c = true.
Proof.
  destruct a as [|s|p], b as [|t|q], c as [|u|r]; simpl; try congruence.
  - intros H1 H2. exact (string_leb_trans _ _ _ H2 H1).
  - rewrite !Qle_bool_iff. intros H1 H2. exact (Qle_trans _ _ _ H2 H1).
Qed.



End CellOrder.

(** ** The sort *)

Section Sorting.

Context {A : Type} (before : A -> A -> bool).

Lemma insert_by_perm (x : A) (l : list A) :
  Permutation (insert_by before x l) (x :: l).
Proof.
  induction l as [|y l IH]; simpl; [reflexivity|].
  destruct (before x y); [reflexivity|].
  rewrite IH. apply perm_swap.
Qed.

Lemma sort_by_perm (l : list A) : Permutation (sort_by before l) l.
Proof.
  induction l as [|x l IH]; simpl; [reflexivity|].
  rewrite insert_by_perm. now constructor.
Qed.

Lemma sort_by_length (l : list A) : length (sort_by before l) = length l.
Proof. apply Permutation_length, sort_by_perm. Qed.



Hypothesis before_total : forall a b, before a b = true \/ before b a = true.
Hypothesis before_trans :
  forall a b c, before a b = true -> before b c = true -> before a c = true.

Lemma insert_by_sorted (x : A) (l : list A) :
  StronglySorted (fun a b => before a b = true) l ->
  StronglySorted (fun a b => before a b = true) (insert_by before x l).
Proof.
  induction 1 as [|y l Hs IH Hy]; simpl.
  - constructor; constructor.
  - destruct (before x y) eqn:Hxy.
    + constructor; [now constructor|].
      constructor; [assumption|].
      eapply Forall_impl; [|exact Hy]. intros z Hz. now apply (before_trans x y z).
    + constructor; [assumption|].
      apply (Permutation_Forall (Permutation_sym (insert_by_perm x l))).
      constructor; [|assumption].
      destruct (before_total x y) as [H|H]; congruence.
Qed.

Lemma sort_by_sorted (l : list A) :
  StronglySorted (fun a b => before a b = true) (sort_by before l).
Proof.
  induction l as [|x l IH]; simpl; [constructor|]. now apply insert_by_sorted.
Qed.

End Sorting.


(** ** LIKE patterns and substrings *)

Section Like.

Lemma bind_Ok {A : Type} (m : result A) : bind m Ok = m.
Proof. now destruct m. Qed.

Lemma startswith_spec (p s : string) :
  startswith p s = true <-> exists b : string, s = (p ++ b)%string.
Proof.
  revert s. induction p as [|a p IH]; intros s; simpl.
  - split; [intros _; now exists s | reflexivity].
  - destruct s as [|c s].
    + split; [discriminate | intros [b Hb]; discriminate].
    + rewrite andb_true_iff, Ascii.eqb_eq, IH. split.
      * intros [-> [b ->]]. now exists b.
      * intros [b Hb]. injection Hb as -> ->. split; [reflexivity | now exists b].
Qed.

(** [occurs_in] decides occurrence as a contiguous substring. *)
Lemma occurs_in_spec (p s : string) :
  occurs_in p s = true <-> substring_of p s.
Proof.
  unfold substring_of. induction s as [|c s IH].
  - simpl. rewrite orb_false_r, startswith_spec. split.
    + intros [b Hb]. now exists EmptyString, b.
    + intros [[|a0 a] [b Hb]]; [now exists b | discriminate].
  - cbn [occurs_in]. rewrite orb_true_iff, startswith_spec, IH. split.
    + intros [[b Hb]|[a [b Hb]]].
      * now exists EmptyString, b.
      * exists (String c a), b. simpl. now rewrite Hb.
    + intros [[|a0 a] [b Hb]].
      * left. now exists b.
      * right. simpl in Hb. injection Hb as -> Hb. now exists a, b.
Qed.

Lemma parse_like_plain (whole term tail : string) :
  plain term = true ->
  parse_like whole (term ++ tail) =
  bind (parse_like whole tail) (fun ts => Ok (literals term ++ ts)).
Proof.
  induction term as [|c term IH]; intros Hp.
  - simpl. now rewrite bind_Ok.
  - simpl in Hp. rewrite !andb_true_iff, !negb_true_iff in Hp.
    destruct Hp as [[[He Hu] Hc] Hrest].
    cbn [append parse_like]. rewrite He, Hu, Hc, (IH Hrest).
    now destruct (parse_like whole tail).
Qed.

(** A plain term between two [%] signs. *)
Lemma escapeLike_plain (term : string) :
  plain term = true ->
  escapeLike ("%" ++ term ++ "%") = Ok (AnyString :: literals term ++ [AnyString]).
Proof.
  intros Hp. unfold escapeLike. cbn [append parse_like].
  replace (is_escape "%") with false by reflexivity.
  replace (is_underscore "%") with false by reflexivity.
  replace (is_percent "%") with true by reflexivity.
  cbv iota. now rewrite (parse_like_plain _ term "%" Hp).
Qed.

Lemma like_match_any_unfold (ts : list like_token) (s : string) :
  like_match (AnyString :: ts) s =
  like_match ts s
  || match s with
     | EmptyString => false
     | String _ s' => like_match (AnyString :: ts) s'
     end.
Proof. now destruct s. Qed.

Lemma like_match_any (s : string) : like_match [AnyString] s = true.
Proof.
  induction s as [|c s IH]; [reflexivity|].
  rewrite like_match_any_unfold, IH. apply orb_true_r.
Qed.

Lemma like_match_any_any (s : string) : like_match [AnyString; AnyString] s = true.
Proof. rewrite like_match_any_unfold, like_match_any. reflexivity. Qed.

Lemma like_match_prefix (p s : string) :
  like_match (literals p ++ [AnyString]) s = startswith p s.
Proof.
  revert s. induction p as [|a p IH]; intros s.
  - apply like_match_any.
  - destruct s as [|c s]; [reflexivity|]. simpl. now rewrite IH.
Qed.

(** [%term%] matches the strings in which the plain term occurs. *)
Lemma like_match_contains (p s : string) :
  like_match (AnyString :: literals p ++ [AnyString]) s = occurs_in p s.
Proof.
  induction s as [|c s IH].
  - rewrite like_match_any_unfold, like_match_prefix. reflexivity.
  - rewrite like_match_any_unfold, like_match_prefix, IH. reflexivity.
Qed.

End Like.

(** * The Dashboard's average *)


Lemma unrated_lacks_rating : lacks (t_columns unrated) "average_rating".
Proof.
  intros n [<-|[<-|[]]]; reflexivity.
Defined.


(** The scenario of the specification: the three books average 4.0. *)
Example average_of_books :
  exists m, average in_order (createDataFrame books) "average_rating" = Ok (Some m)
            /\ (m == 4)%Q.
Proof. eexists. split; reflexivity. Qed.

(** * The Dashboard *)

Section DashboardFacts.

Variable E : Engine.
Variable format_2f : Q -> string.

Lemma count_loaded (D : Table) :
  count (createDataFrame D) = Ok (length (t_rows D)).
Proof. reflexivity. Qed.




(** The first run on a table that loads and is not empty: the sidebar,
    then the chosen page. *)
Lemma app_first_run (D : Table) (inp : Inputs) :
  empty D = false ->
  snd (app E format_2f None (Ok D) inp)
  = (sidebar :: fst (render E format_2f D (createDataFrame D) inp),
     snd (render E format_2f D (createDataFrame D) inp)).
Proof.
  intros He. unfold app, load_data. cbn [fst snd]. rewrite He.
  unfold sbind, emit. cbn [fst snd app]. reflexivity.
Qed.

Lemma dashboard_average_raises (D : Table) (e : exn) :
  average E (createDataFrame D) "average_rating" = Raise e ->
  dashboard E format_2f D (createDataFrame D) = (dashboard_head D, Raise e).
Proof.
  intros H. unfold dashboard, sbind, emit, lift. cbn [fst snd].
  rewrite H. reflexivity.
Qed.



End DashboardFacts.







(** C6, as the code has it: on a non-empty Dataset whose schema has no
    [average_rating] column the Dashboard shows the preview and then
    raises [ColumnNotFound] at the average; the run ends there, so no
    metric is computed or shown after it. *)
Theorem dashboard_aborts_without_ratings
    (E : Engine) (format_2f : Q -> string) (D : Table) (inp : Inputs) :
  empty D = false ->
  lacks (t_columns D) "average_rating" ->
  page inp = Dashboard ->
  snd (app E format_2f None (Ok D) inp)
  = (sidebar :: dashboard_head D, Raise (ColumnNotFound "average_rating")).
Proof.
  intros He Hl Hp.
  rewrite (app_first_run E format_2f D inp He). unfold render. rewrite Hp.
  rewrite (dashboard_average_raises E format_2f D _
             (average_lacks E D "average_rating" Hl)).
  reflexivity.
Qed.

Lemma dashboard_aborts_without_ratings_witness :
  snd (app in_order two_decimals None (Ok unrated) (on_page Dashboard))
  = (sidebar :: dashboard_head unrated, Raise (ColumnNotFound "average_rating")).
Proof.
  exact (dashboard_aborts_without_ratings in_order two_decimals unrated
           (on_page Dashboard) eq_refl unrated_lacks_rating eq_refl).
Defined.

(** C6 as stated fails: on the table without [average_rating] the run
    ends in [ColumnNotFound] and has shown no metric, so the count of its
    two rows is not among the elements. *)
Lemma dashboard_no_metric_after_failure :
  snd (snd (app in_order two_decimals None (Ok unrated) (on_page Dashboard)))
  = Raise (ColumnNotFound "average_rating")
  /\ count (createDataFrame unrated) = Ok 2
  /\ ~ renders_metric "2"
       (fst (snd (app in_order two_decimals None (Ok unrated) (on_page Dashboard)))).
Proof.
  split; [reflexivity|]. split; [reflexivity|].
  intros [label [value [Hin _]]]. cbn in Hin.
  repeat (destruct Hin as [Hin|Hin]; [discriminate|]). exact Hin.
Qed.




(** * The Search page *)

Section SearchFacts.

Variable E : Engine.

(** The filter of lines 95-98 on a loaded table, once both names
    resolve and the pattern parses. *)
Lemma search_filter_run (D : Table) (c1 c2 term : string) (i j : nat)
    (ts : list like_token) :
  resolve (t_columns D) c1 = Ok i ->
  resolve (t_columns D) c2 = Ok j ->
  escapeLike ("%" ++ term ++ "%") = Ok ts ->
  bind (search_filter E (createDataFrame D) c1 c2 term) toPandas
  = Ok (mkTable (t_columns D)
          (List.filter
             (fun r => holds (or3 (option_map (like_match ts) (as_string E (cell i r)))
                                  (option_map (like_match ts) (as_string E (cell j r)))))
             (t_rows D))).
Proof.
  intros Hi Hj He.
  unfold search_filter, filter, or_, like, col, createDataFrame. cbn [columns plan].
  rewrite Hi, Hj. cbn [bind]. rewrite He. reflexivity.
Qed.

Lemma as_string_non_null (v : Value) :
  match as_string E v with Some _ => true | None => false end = non_null v.
Proof. now destruct v. Qed.

Lemma holds_or3_map (f : string -> bool) (a b : option string) :
  holds (or3 (option_map f a) (option_map f b))
  = match a with Some s => f s | None => false end
    || match b with Some s => f s | None => false end.
Proof.
  destruct a as [s|], b as [t|]; simpl;
    try destruct (f s); try destruct (f t); reflexivity.
Qed.

End SearchFacts.

(** X1: for a term without [%], [_] and the escape character, the filter of
    the Search page keeps, in order, exactly the rows in which the term
    occurs literally in the string value of one of the two columns. *)
Theorem search_filter_literal (E : Engine) (D : Table) (c1 c2 term : string) (i j : nat) :
  plain term = true ->
  resolve (t_columns D) c1 = Ok i ->
  resolve (t_columns D) c2 = Ok j ->
  bind (search_filter E (createDataFrame D) c1 c2 term) toPandas
  = Ok (mkTable (t_columns D)
          (List.filter
             (fun r => cell_contains E term (cell i r) || cell_contains E term (cell j r))
             (t_rows D))).
Proof.
  intros Hp Hi Hj.
  rewrite (search_filter_run E D c1 c2 term i j _ Hi Hj (escapeLike_plain term Hp)).
  do 2 f_equal. apply filter_ext. intros r.
  rewrite holds_or3_map. unfold cell_contains.
  f_equal; (destruct (as_string E _); [apply like_match_contains | reflexivity]).
Qed.

Lemma search_filter_literal_witness :
  bind (search_filter in_order (createDataFrame books) "title" "authors" "X") toPandas
  = Ok (mkTable (t_columns books)
          (List.filter
             (fun r => cell_contains in_order "X" (cell 0 r)
                       || cell_contains in_order "X" (cell 1 r))
             (t_rows books))).
Proof.
  exact (search_filter_literal in_order books "title" "authors" "X" 0 1
           eq_refl eq_refl eq_refl).
Defined.

(** C1 fails on the code: the term [_] is read as the one-character
    wildcard.  It occurs in no title and no author of the three books, yet
    the filter keeps all three. *)
Theorem search_underscore_is_wildcard :
  bind (search_filter in_order (createDataFrame books) "title" "authors" "_") toPandas
  = Ok books
  /\ List.filter
       (fun r => cell_contains in_order "_" (cell 0 r)
                 || cell_contains in_order "_" (cell 1 r))
       (t_rows books) = [].
Proof. split; reflexivity. Qed.

(** A term with a lone escape character does not search at all: the
    pattern is malformed, and the run raises after its heading. *)
Example search_backslash_raises :
  search_page in_order (createDataFrame books) "a\b"
  = ([st_title "🔍 Search Books by Name or Author"; st_write "Results for: **a\b**"],
     Raise (InvalidPattern "%a\b%")).
Proof. reflexivity. Qed.

(** C5, as the code has it: with the empty term the Search page runs no
    query and shows no table; the filter itself, were it run on the empty
    term, keeps in order the rows that are non-null in one of the two
    columns, which is every row of a Dataset without rows null in both. *)
Theorem empty_search (E : Engine) (D : Table) :
  search_page E (createDataFrame D) ""
  = ([st_title "🔍 Search Books by Name or Author"], Ok tt)
  /\ forall (c1 c2 : string) (i j : nat),
       resolve (t_columns D) c1 = Ok i ->
       resolve (t_columns D) c2 = Ok j ->
       bind (search_filter E (createDataFrame D) c1 c2 "") toPandas
       = Ok (mkTable (t_columns D)
               (List.filter (fun r => non_null (cell i r) || non_null (cell j r))
                  (t_rows D)))
       /\ ((forall r, In r (t_rows D) ->
              non_null (cell i r) || non_null (cell j r) = true) ->
           bind (search_filter E (createDataFrame D) c1 c2 "") toPandas = Ok D).
Proof.
  split; [reflexivity|]. intros c1 c2 i j Hi Hj.
  assert (Hrun : bind (search_filter E (createDataFrame D) c1 c2 "") toPandas
                 = Ok (mkTable (t_columns D)
                         (List.filter (fun r => non_null (cell i r) || non_null (cell j r))
                            (t_rows D)))).
  { rewrite (search_filter_run E D c1 c2 "" i j [AnyString; AnyString] Hi Hj eq_refl).
    do 2 f_equal. apply filter_ext. intros r.
    rewrite holds_or3_map, <- !(as_string_non_null E).
    f_equal; (destruct (as_string E _); [apply like_match_any_any | reflexivity]). }
  split; [exact Hrun|]. intros Hall. rewrite Hrun. destruct D as [cols rows].
  cbn [t_columns t_rows] in *. do 2 f_equal.
  clear Hrun. induction rows as [|r rows IH]; [reflexivity|].
  cbn [List.filter]. rewrite (Hall r (or_introl eq_refl)).
  f_equal. apply IH. intros r' Hr'. apply Hall. now right.
Qed.

Lemma empty_search_witness :
  search_page in_order (createDataFrame books) ""
  = ([st_title "🔍 Search Books by Name or Author"], Ok tt)
  /\ bind (search_filter in_order (createDataFrame books) "title" "authors" "") toPandas
     = Ok books.
Proof.
  split.
  - exact (proj1 (empty_search in_order books)).
  - refine (proj2 (proj2 (empty_search in_order books) "title" "authors" 0 1
                     eq_refl eq_refl) _).
    intros r [<-|[<-|[<-|[]]]]; reflexivity.
Defined.

(** C5 as stated fails: with the empty term the page shows no row of the
    three books, and the filter run on the empty term drops the row that
    has neither title nor author. *)
Lemma empty_search_is_not_identity :
  search_page in_order (createDataFrame books) ""
  = ([st_title "🔍 Search Books by Name or Author"], Ok tt)
  /\ bind (search_filter in_order (createDataFrame anonymous) "title" "authors" "")
          toPandas
     = Ok (mkTable (t_columns anonymous) [book_A])
  /\ Ok (mkTable (t_columns anonymous) [book_A]) <> Ok anonymous.
Proof.
  split; [reflexivity|]. split; [reflexivity|]. discriminate.
Qed.

(** * The Feedback page *)

Lemma truthy_iff (s : string) : truthy s = true <-> s <> "".
Proof. destruct s; simpl; split; congruence. Qed.

(** C8, as the code has it: on Submit, a name and a text that are both
    non-empty are acknowledged; otherwise one fixed warning is shown, the
    same whichever field is missing, and no acknowledgement; before Submit
    is pressed there is neither.  The cache the run leaves behind does not
    depend on the widgets: nothing entered is kept. *)
Theorem feedback_payload (name text : string) :
  (name <> "" /\ text <> "" ->
     feedback_page name text true
     = ([st_title "💬 Feedback Form"; st_success "Thank you for your feedback! 💚"],
        Ok tt))
  /\ (name = "" \/ text = "" ->
      feedback_page name text true
      = ([st_title "💬 Feedback Form"; st_warning "Please fill in all fields."], Ok tt))
  /\ feedback_page name text false = ([st_title "💬 Feedback Form"], Ok tt)
  /\ forall (E : Engine) (format_2f : Q -> string)
            (cache : option (Table * list Element)) (fetch : result Table)
            (inp inp' : Inputs),
       fst (app E format_2f cache fetch inp) = fst (app E format_2f cache fetch inp').
Proof.
  repeat split.
  - intros [Hn Ht]. apply truthy_iff in Hn, Ht.
    unfold feedback_page. now rewrite Hn, Ht.
  - intros H. unfold feedback_page.
    assert (Hf : truthy name && truthy text = false).
    { destruct H as [-> | ->]; [reflexivity | apply andb_false_r]. }
    now rewrite Hf.
Qed.

Lemma feedback_payload_witness :
  feedback_page "Ann" "hello" true
  = ([st_title "💬 Feedback Form"; st_success "Thank you for your feedback! 💚"], Ok tt)
  /\ feedback_page "" "hello" true
     = ([st_title "💬 Feedback Form"; st_warning "Please fill in all fields."], Ok tt).
Proof.
  split.
  - refine (proj1 (feedback_payload "Ann" "hello") _). split; discriminate.
  - refine (proj1 (proj2 (feedback_payload "" "hello")) _). now left.
Defined.

(** C8 as stated fails: with an empty name and the text hello the
    warning does not name the name field; it is the warning shown when the
    text is the missing field.  And a name and a text that are both
    non-empty are not acknowledged before Submit is pressed. *)
Lemma feedback_warning_names_no_field :
  feedback_page "" "hello" true
  = ([st_title "💬 Feedback Form"; st_warning "Please fill in all fields."], Ok tt)
  /\ occurs_in "name" (lowercase "Please fill in all fields.") = false
  /\ feedback_page "" "hello" true = feedback_page "Ann" "" true
  /\ feedback_page "Ann" "hello" false = ([st_title "💬 Feedback Form"], Ok tt).
Proof. repeat split. Qed.

(** * The Upload page *)

(** C7 fails on the code: whatever the uploaded bytes, the page hands
    the file object itself to [spark.read.csv], which takes paths and
    RDDs only; the run raises [TypeError] after the page's title, no
    second table is built and no preview is shown.  The loader of lines
    24-26 takes the table [pd.read_csv] returns. *)
Theorem upload_raises (E : Engine) (content : string) :
  upload E (Some content)
  = ([st_title "📥 Upload a New CSV Dataset"],
     Raise (TypeError "path can be only string, list or RDD"))
  /\ forall D : Table, snd (snd (load_data None (Ok D))) = D.
Proof. split; reflexivity. Qed.

(** * Top Rated Books *)

Section SortedFacts.

Lemma insert_by_map {A B : Type} (f : A -> B) (before : B -> B -> bool) (x : A) (l : list A) :
  insert_by before (f x) (map f l)
  = map f (insert_by (fun a b => before (f a) (f b)) x l).
Proof.
  induction l as [|y l IH]; [reflexivity|]. simpl.
  destruct (before (f x) (f y)); [reflexivity|]. simpl. now rewrite IH.
Qed.

Lemma sort_by_map {A B : Type} (f : A -> B) (before : B -> B -> bool) (l : list A) :
  sort_by before (map f l) = map f (sort_by (fun a b => before (f a) (f b)) l).
Proof.
  induction l as [|x l IH]; [reflexivity|]. simpl. now rewrite IH, insert_by_map.
Qed.




End SortedFacts.

Lemma top_books_run (E : Engine) (D : Table) (c : string) (k i : nat) :
  resolve (t_columns D) c = Ok i ->
  bind (top_books E (createDataFrame D) c k) toPandas
  = Ok (mkTable (t_columns D)
          (firstn k (sort_by (fun a b => desc_nulls_last (cell i a) (cell i b))
                       (exchange E (t_rows D))))).
Proof.
  intros Hi. unfold top_books, orderBy_desc, createDataFrame. cbn [columns plan].
  rewrite Hi. reflexivity.
Qed.






(** The scenario of the specification, on the order-keeping engine. *)
Example top_two_books :
  bind (top_books in_order (createDataFrame books) "average_rating" 2) toPandas
  = Ok (mkTable (t_columns books) [book_A; book_B]).
Proof. reflexivity. Qed.

(** * Insights: the top authors *)

Section GroupFacts.





Lemma of_nat_order (m n : nat) :
  desc_nulls_last (of_nat m) (of_nat n) = true <-> n <= m.
Proof.
  unfold of_nat. simpl. rewrite Qle_bool_iff, <- Zle_Qle. lia.
Qed.

End GroupFacts.

Lemma groupBy_count_run (E : Engine) (D : Table) (c : string) (i : nat) :
  resolve (t_columns D) c = Ok i ->
  bind (groupBy_count E (createDataFrame D) c "book_count") toPandas
  = Ok (mkTable [c; "book_count"]
          (exchange E (map group_row (group_counts (map (cell i) (t_rows D)))))).
Proof.
  intros Hi. unfold groupBy_count, createDataFrame. cbn [columns plan].
  rewrite Hi. reflexivity.
Qed.

(** The grouped frame, and the query of line 126 on it. *)
Lemma top_authors_run (E : Engine) (D : Table) (c : string) (k i : nat) :
  resolve (t_columns D) c = Ok i ->
  equalsIgnoreCase c "book_count" = false ->
  bind (groupBy_count E (createDataFrame D) c "book_count") toPandas
  = Ok (mkTable [c; "book_count"]
          (exchange E (map group_row (group_counts (map (cell i) (t_rows D))))))
  /\ bind (top_authors E (createDataFrame D) c k) toPandas
     = Ok (mkTable [c; "book_count"]
             (firstn k
                (sort_by (fun a b => desc_nulls_last (cell 1 a) (cell 1 b))
                   (exchange E
                      (exchange E
                         (map group_row (group_counts (map (cell i) (t_rows D))))))))).
Proof.
  intros Hi Hc.
  unfold top_authors, groupBy_count, orderBy_desc, createDataFrame. cbn [columns plan].
  rewrite Hi. cbn [bind columns plan]. unfold resolve. cbn [positions].
  rewrite Hc. split; reflexivity.
Qed.




(** The scenario of the specification, on the order-keeping engine. *)
Example top_authors_of_books :
  bind (top_authors in_order (createDataFrame books) "authors" 10) toPandas
  = Ok (mkTable ["authors"; "book_count"] (map group_row [(Str "X", 2); (Str "Y", 1)])).
Proof. reflexivity. Qed.

(** * Loading and the cache *)

(** X3: when the first fetch fails, the run shows the loader's error
    message and stops before the sidebar: no page is rendered, whatever
    the widgets say. *)
Theorem failed_load_stops
    (E : Engine) (format_2f : Q -> string) (e : exn) (inp : Inputs) :
  snd (app E format_2f None (Raise e) inp)
  = ([st_error ("❌ Failed to load data from Supabase: " ++ str_exn e)],
     Raise StopException).
Proof. reflexivity. Qed.

(** X4: the table is fetched once.  After any first run, a later run
    leaves the cache as it is and shows what it would show had the later
    fetch returned anything else. *)
Theorem cache_is_reused
    (E : Engine) (format_2f : Q -> string) (first later other : result Table)
    (inp inp' : Inputs) :
  let cache := fst (app E format_2f None first inp) in
  fst (app E format_2f cache later inp') = cache
  /\ snd (app E format_2f cache later inp') = snd (app E format_2f cache other inp').
Proof.
  destruct first as [pdf|e]; split; reflexivity.
Qed.

(** X5: the Search page shows at most twenty rows, the first twenty of
    those its filter keeps. *)
Theorem search_shows_twenty (E : Engine) (D : Table) (term : string) (i j : nat)
    (ts : list like_token) :
  truthy term = true ->
  resolve (t_columns D) "title" = Ok i ->
  resolve (t_columns D) "authors" = Ok j ->
  escapeLike ("%" ++ term ++ "%") = Ok ts ->
  exists kept : list Row,
    bind (search_filter E (createDataFrame D) "title" "authors" term) toPandas
    = Ok (mkTable (t_columns D) kept)
    /\ search_page E (createDataFrame D) term
       = ([st_title "🔍 Search Books by Name or Author";
           st_write ("Results for: **" ++ term ++ "**");
           st_dataframe (mkTable (t_columns D) (firstn 20 kept))],
          Ok tt)
    /\ length (firstn 20 kept) <= 20.
Proof.
  intros Ht Hi Hj He. eexists.
  split; [exact (search_filter_run E D "title" "authors" term i j ts Hi Hj He)|].
  split; [|rewrite length_firstn; lia].
  unfold search_page. rewrite Ht.
  unfold search_filter, filter, or_, like, col, createDataFrame. cbn [columns plan].
  rewrite Hi, Hj. cbn [bind]. unfold sbind, emit, lift, limit, toPandas.
  cbn [fst snd columns plan bind]. rewrite He. reflexivity.
Qed.

Lemma search_shows_twenty_witness :
  exists kept : list Row,
    bind (search_filter in_order (createDataFrame books) "title" "authors" "X") toPandas
    = Ok (mkTable (t_columns books) kept)
    /\ search_page in_order (createDataFrame books) "X"
       = ([st_title "🔍 Search Books by Name or Author";
           st_write ("Results for: **" ++ "X" ++ "**");
           st_dataframe (mkTable (t_columns books) (firstn 20 kept))],
          Ok tt)
    /\ length (firstn 20 kept) <= 20.
Proof.
  exact (search_shows_twenty in_order books "X" 0 1 _ eq_refl eq_refl eq_refl eq_refl).
Defined.

(** * Grouping counts every row once *)

Section GroupCounts.

Lemma occurrences_snoc (v k0 : Value) (seen : list Value) :
  occurrences v (seen ++ [k0])
  = occurrences v seen + (if value_eqb k0 v then 1 else 0).
Proof.
  unfold occurrences. rewrite filter_app, length_app. simpl.
  now destruct (value_eqb k0 v).
Qed.

Lemma value_eqb_false_left (a b c : Value) :
  value_eqb a b = true -> value_eqb b c = false -> value_eqb a c = false.
Proof.
  intros Hab Hbc. destruct (value_eqb a c) eqn:Hac; [|reflexivity].
  rewrite value_eqb_sym in Hab.
  rewrite (value_eqb_trans b a c Hab Hac) in Hbc. discriminate.
Qed.

Lemma bump_keys (P : Value -> Prop) (k0 : Value) (acc : list (Value * nat)) :
  Forall (fun e => P (fst e)) acc -> P k0 ->
  Forall (fun e => P (fst e)) (bump k0 acc).
Proof.
  intros Hacc Hk. induction Hacc as [|[k n] acc Hk' Hacc IH]; simpl.
  - now repeat constructor.
  - destruct (value_eqb k0 k); constructor; assumption.
Qed.

Lemma bump_distinct (k0 : Value) (acc : list (Value * nat)) :
  ForallOrdPairs differ acc -> ForallOrdPairs differ (bump k0 acc).
Proof.
  induction 1 as [|[k n] acc Hk Hacc IH]; simpl.
  - repeat constructor.
  - destruct (value_eqb k0 k) eqn:Hkk; constructor; try assumption.
    apply (bump_keys (fun k' => value_eqb k k' = false)); [exact Hk|].
    now rewrite value_eqb_sym.
Qed.

Lemma bump_counts (k0 : Value) (seen : list Value) (acc : list (Value * nat)) :
  ForallOrdPairs differ acc ->
  (forall e, In e acc -> snd e = occurrences (fst e) seen /\ 0 < snd e) ->
  (Forall (fun e => value_eqb k0 (fst e) = false) acc -> occurrences k0 seen = 0) ->
  forall e, In e (bump k0 acc) ->
            snd e = occurrences (fst e) (seen ++ [k0]) /\ 0 < snd e.
Proof.
  induction 1 as [|[k n] acc Hk Hacc IH]; intros Hcount Hnew e He; simpl in He.
  - destruct He as [<-|[]]. cbn [fst snd]. rewrite occurrences_snoc.
    rewrite (Hnew (Forall_nil _)), value_eqb_refl. lia.
  - destruct (value_eqb k0 k) eqn:Hkk.
    + destruct He as [<-|He]; cbn [fst snd].
      * destruct (Hcount (k, n) (or_introl eq_refl)) as [Hn _]. cbn [fst snd] in Hn.
        rewrite occurrences_snoc, Hkk. lia.
      * destruct (Hcount e (or_intror He)) as [Hn Hpos].
        rewrite occurrences_snoc.
        rewrite Forall_forall in Hk.
        rewrite (value_eqb_false_left k0 k (fst e) Hkk (Hk e He)). lia.
    + destruct He as [<-|He]; cbn [fst snd].
      * destruct (Hcount (k, n) (or_introl eq_refl)) as [Hn Hpos].
        cbn [fst snd] in Hn, Hpos. rewrite occurrences_snoc, Hkk. lia.
      * apply IH; try assumption.
        -- intros e' He'. apply Hcount. now right.
        -- intros Hall. apply Hnew. now constructor.
Qed.

Lemma bump_kept (k0 : Value) (acc : list (Value * nat)) (e : Value * nat) :
  In e acc -> exists e', In e' (bump k0 acc) /\ fst e' = fst e.
Proof.
  induction acc as [|[k n] acc IH]; intros He; [destruct He|]. simpl.
  destruct (value_eqb k0 k).
  - destruct He as [<-|He]; [exists (k, S n) | exists e]; simpl; auto.
  - destruct He as [<-|He]; [exists (k, n); simpl; auto|].
    destruct (IH He) as [e' [He' Hf]]. exists e'. simpl. auto.
Qed.

Lemma bump_matched (k0 : Value) (acc : list (Value * nat)) :
  exists e', In e' (bump k0 acc) /\ value_eqb k0 (fst e') = true.
Proof.
  induction acc as [|[k n] acc [e' [He' Hm]]]; simpl.
  - exists (k0, 1). split; [now left | apply value_eqb_refl].
  - destruct (value_eqb k0 k) eqn:Hkk.
    + exists (k, S n). split; [now left | exact Hkk].
    + exists e'. split; [now right | exact Hm].
Qed.

Lemma bump_covers (k0 : Value) (seen : list Value) (acc : list (Value * nat)) :
  (forall v, Forall (fun e => value_eqb v (fst e) = false) acc -> occurrences v seen = 0) ->
  forall v, Forall (fun e => value_eqb v (fst e) = false) (bump k0 acc) ->
            occurrences v (seen ++ [k0]) = 0.
Proof.
  intros Hcov v Hv. rewrite Forall_forall in Hv. rewrite occurrences_snoc.
  rewrite Hcov.
  - destruct (bump_matched k0 acc) as [e' [He' Hm]].
    destruct (value_eqb k0 v) eqn:Hkv; [|reflexivity].
    rewrite value_eqb_sym in Hkv. pose proof (Hv e' He') as Hve.
    rewrite (value_eqb_trans v k0 (fst e') Hkv Hm) in Hve. discriminate.
  - apply Forall_forall. intros e He.
    destruct (bump_kept k0 acc e He) as [e' [He' Hf]]. rewrite <- Hf. now apply Hv.
Qed.

Lemma fold_bump_counted (keys seen : list Value) (acc : list (Value * nat)) :
  counted seen acc ->
  counted (seen ++ keys) (fold_left (fun acc k => bump k acc) keys acc).
Proof.
  revert seen acc. induction keys as [|k0 keys IH]; intros seen acc H.
  - now rewrite app_nil_r.
  - cbn [fold_left]. replace (seen ++ k0 :: keys) with ((seen ++ [k0]) ++ keys)
      by now rewrite <- app_assoc.
    apply IH. destruct H as [Hd [Hc Hv]]. split; [|split].
    + now apply bump_distinct.
    + apply bump_counts; try assumption. apply Hv.
    + now apply bump_covers.
Qed.

Lemma group_counts_counted (keys : list Value) : counted keys (group_counts keys).
Proof.
  apply (fold_bump_counted keys [] []). split; [constructor|]. split.
  - intros e [].
  - reflexivity.
Qed.

Lemma distinct_one_group (acc : list (Value * nat)) (v : Value) :
  ForallOrdPairs differ acc -> length (groups_of v acc) <= 1.
Proof.
  unfold groups_of. induction 1 as [|[k n] acc Hk Hacc IH]; simpl; [lia|].
  destruct (value_eqb k v) eqn:Hkv; [|exact IH].
  replace (List.filter (fun g => value_eqb (fst g) v) acc) with (@nil (Value * nat));
    [simpl; lia|].
  symmetry. clear IH Hacc. induction Hk as [|e acc He Hk IH]; [reflexivity|].
  simpl. rewrite IH. unfold differ in He. cbn [fst] in He.
  destruct (value_eqb (fst e) v) eqn:Hev; [|reflexivity].
  rewrite value_eqb_sym in Hev.
  rewrite (value_eqb_trans k v (fst e) Hkv Hev) in He. discriminate.
Qed.

End GroupCounts.

Lemma filter_perm {A : Type} (p : A -> bool) (l l' : list A) :
  Permutation l l' -> Permutation (List.filter p l) (List.filter p l').
Proof.
  induction 1 as [|x l l' H IH|x y l|l l' l'' H1 IH1 H2 IH2]; simpl.
  - constructor.
  - destruct (p x); [now constructor | assumption].
  - destruct (p x), (p y); try reflexivity. apply perm_swap.
  - now transitivity (List.filter p l').
Qed.

Lemma occurrences_with_key (i : nat) (v : Value) (rs : list Row) :
  occurrences v (map (cell i) rs) = length (with_key (cell i) v rs).
Proof.
  unfold occurrences, with_key. induction rs as [|r rs IH]; [reflexivity|].
  simpl. destruct (value_eqb (cell i r) v); simpl; now rewrite IH.
Qed.

(** X6: the grouped frame of line 126 has, for every value of the
    grouping column (null included), at most one row; the count of a row
    is the number of rows of [D] with its key and is positive; and every
    row of [D] has a group with its key. *)
Theorem groups_count_their_rows (E : Engine) (D : Table) (c : string) (i : nat) :
  resolve (t_columns D) c = Ok i ->
  exists groups : list (Value * nat),
    bind (groupBy_count E (createDataFrame D) c "book_count") toPandas
    = Ok (mkTable [c; "book_count"] (map group_row groups))
    /\ (forall v, length (groups_of v groups) <= 1)
    /\ (forall g, In g groups ->
          snd g = length (with_key (cell i) (fst g) (t_rows D)) /\ 0 < snd g)
    /\ (forall r, In r (t_rows D) ->
          exists g, In g groups /\ value_eqb (cell i r) (fst g) = true).
Proof.
  intros Hi.
  set (gc := group_counts (map (cell i) (t_rows D))).
  destruct (Permutation_map_inv group_row gc (exchange_perm E _ (map group_row gc)))
    as [groups [Hgroups Hperm]].
  destruct (group_counts_counted (map (cell i) (t_rows D))) as [Hd [Hc Hv]].
  fold gc in Hd, Hc, Hv.
  exists groups. split; [|split; [|split]].
  - rewrite (groupBy_count_run E D c i Hi). fold gc. now rewrite Hgroups.
  - intros v. unfold groups_of.
    rewrite <- (Permutation_length (filter_perm _ _ _ Hperm)).
    now apply distinct_one_group.
  - intros g Hg. apply (Permutation_in _ (Permutation_sym Hperm)) in Hg.
    destruct (Hc g Hg) as [Hn Hpos]. split; [|exact Hpos].
    now rewrite Hn, occurrences_with_key.
  - intros r Hr.
    destruct (Exists_dec (fun e : Value * nat => value_eqb (cell i r) (fst e) = true) gc)
      as [Hex|Hno].
    { intros e. destruct (value_eqb (cell i r) (fst e)); [now left | now right]. }
    + apply Exists_exists in Hex. destruct Hex as [g [Hg Hm]].
      exists g. split; [exact (Permutation_in _ Hperm Hg) | exact Hm].
    + exfalso. assert (H0 : occurrences (cell i r) (map (cell i) (t_rows D)) = 0).
      { apply Hv. apply Forall_forall. intros e He.
        destruct (value_eqb (cell i r) (fst e)) eqn:Hm; [|reflexivity].
        exfalso. apply Hno. apply Exists_exists. now exists e. }
      rewrite occurrences_with_key in H0. unfold with_key in H0.
      assert (Hin : In r (List.filter (fun r0 => value_eqb (cell i r0) (cell i r)) (t_rows D))).
      { apply filter_In. split; [exact Hr | apply value_eqb_refl]. }
      destruct (List.filter _ (t_rows D)); [destruct Hin | discriminate].
Qed.

Lemma groups_count_their_rows_witness :
  exists groups : list (Value * nat),
    bind (groupBy_count reversing (createDataFrame books) "authors" "book_count") toPandas
    = Ok (mkTable ["authors"; "book_count"] (map group_row groups))
    /\ (forall v, length (groups_of v groups) <= 1)
    /\ (forall g, In g groups ->
          snd g = length (with_key (cell 1) (fst g) (t_rows books)) /\ 0 < snd g)
    /\ (forall r, In r (t_rows books) ->
          exists g, In g groups /\ value_eqb (cell 1 r) (fst g) = true).
Proof.
  exact (groups_count_their_rows reversing books "authors" 1 eq_refl).
Defined.

(** * More of the Search page *)

Section SearchEdges.

Variable E : Engine.

Lemma truthy_append (p : string) (c : ascii) (rest : string) :
  truthy (p ++ String c rest) = true.
Proof. now destruct p. Qed.

Lemma append_assoc (a b c : string) : ((a ++ b) ++ c = a ++ (b ++ c))%string.
Proof. induction a as [|x a IH]; simpl; [reflexivity | now rewrite IH]. Qed.

Lemma literals_app (p q : string) : literals (p ++ q) = literals p ++ literals q.
Proof. induction p as [|c p IH]; simpl; [reflexivity | now rewrite IH]. Qed.

(** A backslash before an ordinary character, after a plain prefix. *)
Lemma parse_like_bad_escape (whole p : string) (d : ascii) (rest : string) :
  plain p = true ->
  is_underscore d || is_percent d || is_escape d = false ->
  parse_like whole (p ++ String "\" (String d rest)) = Raise (InvalidPattern whole).
Proof.
  intros Hp Hd. rewrite (parse_like_plain whole p _ Hp).
  cbn [parse_like]. replace (is_escape "\") with true by reflexivity.
  cbv iota. now rewrite Hd.
Qed.

(** A backslash at the end of the term, after a plain prefix, takes the
    closing [%] of the pattern as a literal. *)
Lemma escapeLike_trailing_backslash (p : string) :
  plain p = true ->
  escapeLike ("%" ++ (p ++ "\") ++ "%") = Ok (AnyString :: literals (p ++ "%")).
Proof.
  intros Hp. unfold escapeLike. rewrite append_assoc. cbn [append parse_like].
  replace (is_escape "%") with false by reflexivity.
  replace (is_underscore "%") with false by reflexivity.
  replace (is_percent "%") with true by reflexivity.
  cbv iota. rewrite (parse_like_plain _ p _ Hp). cbn [parse_like].
  replace (is_escape "\") with true by reflexivity.
  replace (is_underscore "%") with false by reflexivity.
  replace (is_percent "%") with true by reflexivity.
  cbn. now rewrite literals_app.
Qed.

Lemma like_match_literals (q s : string) : like_match (literals q) s = String.eqb q s.
Proof.
  revert s. induction q as [|a q IH]; intros [|c s]; simpl; try reflexivity.
  now rewrite IH.
Qed.

Lemma like_match_suffix (q s : string) :
  like_match (AnyString :: literals q) s = endswith q s.
Proof.
  induction s as [|c s IH].
  - rewrite like_match_any_unfold, like_match_literals. reflexivity.
  - rewrite like_match_any_unfold, like_match_literals, IH. reflexivity.
Qed.

Lemma endswith_spec (q s : string) :
  endswith q s = true <-> exists a : string, s = (a ++ q)%string.
Proof.
  induction s as [|c s IH].
  - simpl. rewrite orb_false_r, String.eqb_eq. split.
    + intros ->. now exists EmptyString.
    + intros [[|x a] Ha]; simpl in Ha; [now symmetry | discriminate].
  - cbn [endswith]. rewrite orb_true_iff, String.eqb_eq, IH. split.
    + intros [->|[a ->]]; [now exists EmptyString | now exists (String c a)].
    + intros [[|x a] Ha]; simpl in Ha.
      * now left.
      * right. injection Ha as -> ->. now exists a.
Qed.

Lemma search_analysis_raises (df : DataFrame) (term : string) (e : exn) :
  truthy term = true ->
  search_filter E df "title" "authors" term = Raise e ->
  search_page E df term = ([st_title "🔍 Search Books by Name or Author"], Raise e).
Proof.
  intros Ht Hf. unfold search_page. rewrite Ht.
  unfold sbind, emit, lift. cbn [fst snd]. rewrite Hf. reflexivity.
Qed.

Lemma search_execution_raises (D : Table) (term : string) (i j : nat) (e : exn) :
  truthy term = true ->
  resolve (t_columns D) "title" = Ok i ->
  resolve (t_columns D) "authors" = Ok j ->
  escapeLike ("%" ++ term ++ "%") = Raise e ->
  search_page E (createDataFrame D) term
  = ([st_title "🔍 Search Books by Name or Author";
      st_write ("Results for: **" ++ term ++ "**")],
     Raise e).
Proof.
  intros Ht Hi Hj He. unfold search_page. rewrite Ht.
  unfold search_filter, filter, or_, like, col, createDataFrame. cbn [columns plan].
  rewrite Hi, Hj. cbn [bind]. unfold sbind, emit, lift, limit, toPandas.
  cbn [fst snd columns plan bind]. rewrite He. reflexivity.
Qed.

End SearchEdges.

(** X7: a non-empty search on a Dataset without the [title] column, or
    with it and without the [authors] column, raises [ColumnNotFound] for
    that column when the filter is built: the page shows its title only,
    not even the line that repeats the term. *)
Theorem search_needs_both_columns (E : Engine) (D : Table) (term : string) :
  truthy term = true ->
  (lacks (t_columns D) "title" ->
   search_page E (createDataFrame D) term
   = ([st_title "🔍 Search Books by Name or Author"], Raise (ColumnNotFound "title")))
  /\ (forall i, resolve (t_columns D) "title" = Ok i ->
      lacks (t_columns D) "authors" ->
      search_page E (createDataFrame D) term
      = ([st_title "🔍 Search Books by Name or Author"],
         Raise (ColumnNotFound "authors"))).
Proof.
  intros Ht. split.
  - intros Hl. apply (search_analysis_raises E _ _ _ Ht).
    unfold search_filter, filter, or_, like, col, createDataFrame. cbn [columns plan].
    now rewrite (resolve_lacks _ _ Hl).
  - intros i Hi Hl. apply (search_analysis_raises E _ _ _ Ht).
    unfold search_filter, filter, or_, like, col, createDataFrame. cbn [columns plan].
    rewrite Hi. cbn [bind]. now rewrite (resolve_lacks _ _ Hl).
Qed.

Lemma authorless_lacks_authors : lacks (t_columns authorless) "authors".
Proof. intros n [<-|[<-|[]]]; reflexivity. Defined.

Lemma search_needs_both_columns_witness :
  search_page in_order (createDataFrame authorless) "A"
  = ([st_title "🔍 Search Books by Name or Author"], Raise (ColumnNotFound "authors")).
Proof.
  exact (proj2 (search_needs_both_columns in_order authorless "A" eq_refl) 0 eq_refl
           authorless_lacks_authors).
Defined.

(** X8: a term in which, after a prefix free of [%], [_] and
    backslash, a backslash stands before a character other than these
    three does not search: the page repeats the term and then raises
    [InvalidPattern]; no table is shown. *)
Theorem search_bad_escape_raises (E : Engine) (D : Table) (p : string) (d : ascii)
    (rest : string) (i j : nat) :
  plain p = true ->
  is_underscore d || is_percent d || is_escape d = false ->
  resolve (t_columns D) "title" = Ok i ->
  resolve (t_columns D) "authors" = Ok j ->
  let term := (p ++ String "\" (String d rest))%string in
  search_page E (createDataFrame D) term
  = ([st_title "🔍 Search Books by Name or Author";
      st_write ("Results for: **" ++ term ++ "**")],
     Raise (InvalidPattern ("%" ++ term ++ "%"))).
Proof.
  intros Hp Hd Hi Hj term.
  apply (search_execution_raises E D term i j _ (truthy_append p _ _) Hi Hj).
  unfold escapeLike, term. cbn [append parse_like].
  replace (is_escape "%") with false by reflexivity.
  replace (is_underscore "%") with false by reflexivity.
  replace (is_percent "%") with true by reflexivity.
  cbv iota. rewrite append_assoc. cbn [append].
  now rewrite (parse_like_bad_escape _ p d (rest ++ "%") Hp Hd).
Qed.

Lemma search_bad_escape_raises_witness :
  search_page in_order (createDataFrame books) "AC\DC"
  = ([st_title "🔍 Search Books by Name or Author";
      st_write ("Results for: **" ++ "AC\DC" ++ "**")],
     Raise (InvalidPattern ("%" ++ "AC\DC" ++ "%"))).
Proof.
  exact (search_bad_escape_raises in_order books "AC" "D" "C" 0 1
           eq_refl eq_refl eq_refl eq_refl).
Defined.

(** X9: a term that ends in a backslash, after a prefix [p] free of
    [%], [_] and backslash, turns the closing [%] of the pattern into a
    literal: the filter keeps, in order, exactly the rows whose title or
    authors string ends with [p] followed by a percent sign. *)
Theorem search_trailing_backslash (E : Engine) (D : Table) (p : string) (i j : nat) :
  plain p = true ->
  resolve (t_columns D) "title" = Ok i ->
  resolve (t_columns D) "authors" = Ok j ->
  bind (search_filter E (createDataFrame D) "title" "authors" (p ++ "\")) toPandas
  = Ok (mkTable (t_columns D)
          (List.filter
             (fun r => cell_endswith E (p ++ "%") (cell i r)
                       || cell_endswith E (p ++ "%") (cell j r))
             (t_rows D))).
Proof.
  intros Hp Hi Hj.
  rewrite (search_filter_run E D "title" "authors" (p ++ "\") i j _ Hi Hj
             (escapeLike_trailing_backslash p Hp)).
  do 2 f_equal. apply filter_ext. intros r.
  rewrite holds_or3_map. unfold cell_endswith.
  f_equal; (destruct (as_string E _); [apply like_match_suffix | reflexivity]).
Qed.

Lemma search_trailing_backslash_witness :
  bind (search_filter in_order (createDataFrame books) "title" "authors" ("X" ++ "\"))
       toPandas
  = Ok (mkTable (t_columns books)
          (List.filter
             (fun r => cell_endswith in_order ("X" ++ "%") (cell 0 r)
                       || cell_endswith in_order ("X" ++ "%") (cell 1 r))
             (t_rows books))).
Proof.
  exact (search_trailing_backslash in_order books "X" 0 1 eq_refl eq_refl eq_refl).
Defined.

(** * The Top Rated and Insights pages *)

Section PageFacts.

Variable E : Engine.



Lemma top_books_frame (D : Table) (c : string) (k i : nat) :
  resolve (t_columns D) c = Ok i ->
  top_books E (createDataFrame D) c k
  = Ok (mkDataFrame (t_columns D)
          (Ok (firstn k (sort_by (fun a b => desc_nulls_last (cell i a) (cell i b))
                           (exchange E (t_rows D)))))).
Proof.
  intros Hi. unfold top_books, orderBy_desc, createDataFrame. cbn [columns plan].
  rewrite Hi. reflexivity.
Qed.





End PageFacts.



(** X11: where the Top Rated page fails.  Without an [average_rating]
    column it raises [ColumnNotFound] after its title.  With it, and
    without a column named exactly [title] (pandas, unlike Spark, matches
    case), it shows the sorted table and the chart's heading and then
    raises [KeyError]; the chart is not drawn. *)
Theorem top_rated_failures (E : Engine) (D : Table) :
  (lacks (t_columns D) "average_rating" ->
   top_rated E (createDataFrame D)
   = ([st_title "🏆 Top Rated Books"], Raise (ColumnNotFound "average_rating")))
  /\ (forall i, resolve (t_columns D) "average_rating" = Ok i ->
      index_of "title" (t_columns D) = None ->
      exists shown : list Row,
        top_rated E (createDataFrame D)
        = ([st_title "🏆 Top Rated Books";
            st_dataframe (mkTable (t_columns D) shown);
            st_subheader "Top 10 Books by Rating"],
           Raise (KeyError "title"))
        /\ length shown = Nat.min 20 (length (t_rows D))).
Proof.
  split.
  - intros Hl. unfold top_rated, top_books, orderBy_desc, createDataFrame.
    cbn [columns plan]. rewrite (resolve_lacks _ _ Hl). reflexivity.
  - intros i Hi Ht. eexists. split.
    + unfold top_rated. rewrite (top_books_frame E D "average_rating" 20 i Hi).
      unfold sbind, emit, lift, limit, toPandas, getitem.
      cbn [fst snd columns plan bind t_columns t_rows].
      rewrite Ht. reflexivity.
    + rewrite length_firstn, sort_by_length.
      now rewrite (Permutation_length (exchange_perm E _ (t_rows D))).
Qed.

Lemma top_rated_failures_witness :
  top_rated in_order (createDataFrame unrated)
  = ([st_title "🏆 Top Rated Books"], Raise (ColumnNotFound "average_rating"))
  /\ exists shown : list Row,
       top_rated in_order (createDataFrame retitled)
       = ([st_title "🏆 Top Rated Books";
           st_dataframe (mkTable (t_columns retitled) shown);
           st_subheader "Top 10 Books by Rating"],
          Raise (KeyError "title"))
       /\ length shown = Nat.min 20 (length (t_rows retitled)).
Proof.
  split.
  - exact (proj1 (top_rated_failures in_order unrated) unrated_lacks_rating).
  - exact (proj2 (top_rated_failures in_order retitled) 2 eq_refl eq_refl).
Defined.

(** X12: when the limit is at least the number of rows, the query of
    the Top Rated page returns every row of [D] exactly once: with twenty
    books or fewer the table lists them all. *)
Theorem top_books_keeps_all (E : Engine) (D : Table) (c : string) (k i : nat) :
  resolve (t_columns D) c = Ok i ->
  length (t_rows D) <= k ->
  exists out : list Row,
    bind (top_books E (createDataFrame D) c k) toPandas = Ok (mkTable (t_columns D) out)
    /\ Permutation out (t_rows D).
Proof.
  intros Hi Hk. eexists. split; [exact (top_books_run E D c k i Hi)|].
  rewrite firstn_all2.
  - rewrite sort_by_perm. apply exchange_perm.
  - rewrite sort_by_length.
    now rewrite (Permutation_length (exchange_perm E _ (t_rows D))).
Qed.

Lemma top_books_keeps_all_witness :
  exists out : list Row,
    bind (top_books reversing (createDataFrame books) "average_rating" 20) toPandas
    = Ok (mkTable (t_columns books) out)
    /\ Permutation out (t_rows books).
Proof.
  refine (top_books_keeps_all reversing books "average_rating" 20 2 eq_refl _).
  cbn. lia.
Defined.





(** * More of the Dashboard and of loading *)

Lemma distinct_count_lacks (E : Engine) (D : Table) (c : string) :
  lacks (t_columns D) c ->
  distinct_count E (createDataFrame D) c = Raise (ColumnNotFound c).
Proof.
  intros Hl. unfold distinct_count, select, createDataFrame. cbn [columns plan].
  now rewrite (resolve_lacks _ _ Hl).
Qed.

(** X15: on a non-empty Dataset that has the [average_rating] column
    and no [authors] column, the Dashboard shows the preview and then
    raises [ColumnNotFound] for [authors]: the author count that is never
    displayed still ends the page before any metric is shown, also when
    the average could be computed. *)
Theorem dashboard_needs_authors
    (E : Engine) (format_2f : Q -> string) (D : Table) (inp : Inputs) (i : nat) :
  empty D = false ->
  resolve (t_columns D) "average_rating" = Ok i ->
  lacks (t_columns D) "authors" ->
  page inp = Dashboard ->
  snd (app E format_2f None (Ok D) inp)
  = (sidebar :: dashboard_head D, Raise (ColumnNotFound "authors")).
Proof.
  intros He Hi Hl Hp.
  rewrite (app_first_run E format_2f D inp He). unfold render. rewrite Hp.
  destruct (average_resolved E D "average_rating" i Hi) as [m [Ha _]].
  unfold dashboard, sbind, emit, lift. cbn [fst snd].
  rewrite Ha. cbn [fst snd]. rewrite count_loaded. cbn [fst snd].
  rewrite (distinct_count_lacks E D "authors" Hl). reflexivity.
Qed.

Lemma dashboard_needs_authors_witness :
  snd (app in_order two_decimals None (Ok authorless) (on_page Dashboard))
  = (sidebar :: dashboard_head authorless, Raise (ColumnNotFound "authors")).
Proof.
  exact (dashboard_needs_authors in_order two_decimals authorless (on_page Dashboard) 1
           eq_refl eq_refl authorless_lacks_authors eq_refl).
Defined.

(** X16: a table that loads without a row (or without a column) stops
    the run in silence: no message, no sidebar, no page; and so does
    every later run, whatever a new fetch would return. *)
Theorem empty_table_stops
    (E : Engine) (format_2f : Q -> string) (D : Table) (later : result Table)
    (inp inp' : Inputs) :
  empty D = true ->
  snd (app E format_2f None (Ok D) inp) = ([], Raise StopException)
  /\ snd (app E format_2f (fst (app E format_2f None (Ok D) inp)) later inp')
     = ([], Raise StopException).
Proof.
  intros He. split; unfold app, load_data; cbn [fst snd]; rewrite He; reflexivity.
Qed.

Lemma empty_table_stops_witness :
  snd (app in_order two_decimals None (Ok header_only) (on_page Home))
  = ([], Raise StopException)
  /\ snd (app in_order two_decimals
            (fst (app in_order two_decimals None (Ok header_only) (on_page Home)))
            (Ok books) (on_page Dashboard))
     = ([], Raise StopException).
Proof.
  exact (empty_table_stops in_order two_decimals header_only (Ok books)
           (on_page Home) (on_page Dashboard) eq_refl).
Defined.

(** A failed first fetch is remembered: every later run shows the same
    error message and stops, also when the fetch would now return a
    table. *)
Remark failed_load_is_cached
    (E : Engine) (format_2f : Q -> string) (e : exn) (later : result Table)
    (inp inp' : Inputs) :
  snd (app E format_2f (fst (app E format_2f None (Raise e) inp)) later inp')
  = ([st_error ("❌ Failed to load data from Supabase: " ++ str_exn e)],
     Raise StopException).
Proof. reflexivity. Qed.

(** * Distinct values and groups *)

Section DistinctFacts.

Lemma bump_known (k : Value) (acc : list (Value * nat)) :
  grouped k acc = true ->
  length (bump k acc) = length acc /\ map fst (bump k acc) = map fst acc.
Proof.
  induction acc as [|[k' n] acc IH]; [discriminate|]. simpl.
  destruct (value_eqb k k'); simpl; [now split|].
  intros H. destruct (IH H) as [Hl Hm]. now rewrite Hl, Hm.
Qed.

Lemma bump_new (k : Value) (acc : list (Value * nat)) :
  grouped k acc = false -> bump k acc = acc ++ [(k, 1)].
Proof.
  induction acc as [|[k' n] acc IH]; [reflexivity|]. simpl.
  destruct (value_eqb k k'); simpl; [discriminate|].
  intros H. now rewrite (IH H).
Qed.

Lemma grouped_keys (v : Value) (acc acc' : list (Value * nat)) :
  map fst acc = map fst acc' -> grouped v acc = grouped v acc'.
Proof.
  unfold grouped. revert acc'.
  induction acc as [|e acc IH]; intros [|e' acc'] H; try discriminate; [reflexivity|].
  simpl in *. injection H as He Hacc. now rewrite He, (IH acc' Hacc).
Qed.

Lemma dedupe_groups (keys : list Value) (seen : list Row) (acc : list (Value * nat)) :
  (forall v, existsb (row_eqb [v]) seen = grouped v acc) ->
  length (dedupe seen (map (fun k => [k]) keys)) + length acc
  = length (fold_left (fun acc k => bump k acc) keys acc).
Proof.
  revert seen acc. induction keys as [|k keys IH]; intros seen acc H; [reflexivity|].
  cbn [map dedupe fold_left]. rewrite (H k).
  destruct (grouped k acc) eqn:Hk.
  - destruct (bump_known k acc Hk) as [Hl Hm].
    rewrite <- (IH seen (bump k acc)), Hl; [reflexivity|].
    intros v. rewrite (H v). now apply grouped_keys.
  - cbn [length]. rewrite <- (IH ([k] :: seen) (bump k acc)).
    + rewrite (bump_new k acc Hk), length_app. cbn [length].
      now rewrite Nat.add_1_r, Nat.add_succ_r.
    + intros v. rewrite (bump_new k acc Hk).
      cbn [existsb]. rewrite (H v). unfold grouped.
      rewrite existsb_app. cbn [existsb row_eqb fst].
      rewrite andb_true_r, orb_false_r. apply orb_comm.
Qed.

End DistinctFacts.

(** X17: the number of distinct authors the Dashboard computes at line
    77 is the number of groups the Insights page forms at line 126: both
    count each value of the column once, null included. *)
Theorem distinct_count_is_group_count (E : Engine) (D : Table) (c : string) (i : nat) :
  resolve (t_columns D) c = Ok i ->
  distinct_count E (createDataFrame D) c
  = Ok (length (group_counts (map (cell i) (t_rows D))))
  /\ bind (groupBy_count E (createDataFrame D) c "book_count") count
     = Ok (length (group_counts (map (cell i) (t_rows D)))).
Proof.
  intros Hi. split.
  - unfold distinct_count, select, distinct, count, createDataFrame.
    cbn [columns plan]. rewrite Hi. cbn [bind columns plan]. f_equal.
    rewrite (Permutation_length (exchange_perm E _ _)).
    rewrite <- (map_map (cell i) (fun k => [k])).
    pose proof (dedupe_groups (map (cell i) (t_rows D)) [] []) as H.
    rewrite Nat.add_0_r in H. apply H. reflexivity.
  - unfold groupBy_count, count, createDataFrame. cbn [columns plan].
    rewrite Hi. cbn [bind columns plan]. f_equal.
    rewrite (Permutation_length (exchange_perm E _ _)). apply length_map.
Qed.

Lemma distinct_count_is_group_count_witness :
  distinct_count reversing (createDataFrame books) "authors"
  = Ok (length (group_counts (map (cell 1) (t_rows books))))
  /\ bind (groupBy_count reversing (createDataFrame books) "authors" "book_count") count
     = Ok (length (group_counts (map (cell 1) (t_rows books)))).
Proof.
  exact (distinct_count_is_group_count reversing books "authors" 1 eq_refl).
Defined.

(** * The rows a limit leaves out *)

Section Best.

Lemma StronglySorted_across {A : Type} (R : A -> A -> Prop) (l1 l2 : list A) :
  StronglySorted R (l1 ++ l2) -> forall a b, In a l1 -> In b l2 -> R a b.
Proof.
  induction l1 as [|x l1 IH]; intros Hs a b Ha Hb; [destruct Ha|].
  simpl in Hs. inversion Hs as [|y l Hl Hx]; subst.
  destruct Ha as [<-|Ha].
  - rewrite Forall_forall in Hx. apply Hx. apply in_or_app. now right.
  - now apply IH.
Qed.

(** What a sort and a limit return ranks before what they leave out. *)
Lemma sorted_prefix_best {A : Type} (before : A -> A -> bool) (k : nat) (l l' : list A) :
  (forall a b, before a b = true \/ before b a = true) ->
  (forall a b c, before a b = true -> before b c = true -> before a c = true) ->
  Permutation l' l ->
  exists rest,
    Permutation (firstn k (sort_by before l') ++ rest) l
    /\ forall a b, In a (firstn k (sort_by before l')) -> In b rest ->
                   before a b = true.
Proof.
  intros Htot Htrans Hperm. exists (skipn k (sort_by before l')). split.
  - rewrite firstn_skipn. now rewrite sort_by_perm.
  - apply (StronglySorted_across (fun a b => before a b = true)).
    rewrite firstn_skipn. now apply sort_by_sorted.
Qed.

End Best.

(** X18: the query of the Top Rated page returns the best rows: every
    row of [D] it leaves out may stand, in descending order of the column
    with nulls last, after every row it returns. *)
Theorem top_books_are_best (E : Engine) (D : Table) (c : string) (k i : nat) :
  resolve (t_columns D) c = Ok i ->
  exists out rest : list Row,
    bind (top_books E (createDataFrame D) c k) toPandas = Ok (mkTable (t_columns D) out)
    /\ Permutation (out ++ rest) (t_rows D)
    /\ forall a b, In a out -> In b rest ->
                   desc_nulls_last (cell i a) (cell i b) = true.
Proof.
  intros Hi.
  destruct (sorted_prefix_best (fun a b => desc_nulls_last (cell i a) (cell i b)) k
              (t_rows D) (exchange E (t_rows D))) as [rest [Hperm Hbest]].
  - intros a b. apply desc_nulls_last_total.
  - intros a b d. apply desc_nulls_last_trans.
  - apply exchange_perm.
  - eexists. exists rest. split; [exact (top_books_run E D c k i Hi)|].
    split; assumption.
Qed.

Lemma top_books_are_best_witness :
  exists out rest : list Row,
    bind (top_books reversing (createDataFrame books) "average_rating" 2) toPandas
    = Ok (mkTable (t_columns books) out)
    /\ Permutation (out ++ rest) (t_rows books)
    /\ forall a b, In a out -> In b rest ->
                   desc_nulls_last (cell 2 a) (cell 2 b) = true.
Proof.
  exact (top_books_are_best reversing books "average_rating" 2 2 eq_refl).
Defined.

(** X19: the query of the Insights page returns the largest groups: no
    group it leaves out has more books than a group it returns. *)
Theorem top_authors_are_best (E : Engine) (D : Table) (c : string) (k i : nat) :
  resolve (t_columns D) c = Ok i ->
  equalsIgnoreCase c "book_count" = false ->
  exists top rest : list (Value * nat),
    bind (top_authors E (createDataFrame D) c k) toPandas
    = Ok (mkTable [c; "book_count"] (map group_row top))
    /\ Permutation (top ++ rest) (group_counts (map (cell i) (t_rows D)))
    /\ forall a b, In a top -> In b rest -> snd b <= snd a.
Proof.
  intros Hi Hc. destruct (top_authors_run E D c k i Hi Hc) as [_ Ht].
  set (gc := group_counts (map (cell i) (t_rows D))) in *.
  destruct (Permutation_map_inv group_row gc (exchange_perm E _ (map group_row gc)))
    as [groups [Hgroups Hperm]].
  destruct (Permutation_map_inv group_row groups
              (exchange_perm E _ (map group_row groups)))
    as [again [Hagain Hperm2]].
  set (before := fun a b : Value * nat =>
                   desc_nulls_last (of_nat (snd a)) (of_nat (snd b))).
  destruct (sorted_prefix_best before k gc again) as [rest [Hrest Hbest]].
  - intros a b. apply desc_nulls_last_total.
  - intros a b d. apply desc_nulls_last_trans.
  - apply Permutation_sym. now transitivity groups.
  - exists (firstn k (sort_by before again)), rest. split; [|split].
    + rewrite Ht, Hgroups, Hagain, sort_by_map, firstn_map. reflexivity.
    + exact Hrest.
    + intros a b Ha Hb. apply of_nat_order. now apply Hbest.
Qed.

Lemma top_authors_are_best_witness :
  exists top rest : list (Value * nat),
    bind (top_authors rotating (createDataFrame singles) "authors" 2) toPandas
    = Ok (mkTable ["authors"; "book_count"] (map group_row top))
    /\ Permutation (top ++ rest) (group_counts (map (cell 1) (t_rows singles)))
    /\ forall a b, In a top -> In b rest -> snd b <= snd a.
Proof.
  exact (top_authors_are_best rotating singles "authors" 2 1 eq_refl eq_refl).
Defined.

(** * Terms made of wildcards *)

Section Wildcards.

Variable E : Engine.

Lemma percent_is_percent (c : ascii) :
  is_percent c = true -> is_escape c = false /\ is_underscore c = false.
Proof. unfold is_percent. rewrite Ascii.eqb_eq. intros ->. now split. Qed.


Lemma parse_like_percents (whole term tail : string) :
  only_percent term = true ->
  parse_like whole (term ++ tail)
  = bind (parse_like whole tail)
         (fun ts => Ok (repeat AnyString (String.length term) ++ ts)).
Proof.
  induction term as [|c term IH]; intros Hp.
  - simpl. now rewrite bind_Ok.
  - simpl in Hp. apply andb_true_iff in Hp. destruct Hp as [Hc Hrest].
    destruct (percent_is_percent c Hc) as [He Hu].
    cbn [append parse_like String.length repeat List.app].
    rewrite He, Hu, Hc, (IH Hrest).
    now destruct (parse_like whole tail).
Qed.


Lemma like_match_percents (n : nat) (s : string) :
  like_match (repeat AnyString n ++ [AnyString]) s = true.
Proof.
  induction n as [|n IH]; [apply like_match_any|].
  cbn [repeat List.app]. now rewrite like_match_any_unfold, IH.
Qed.



Lemma escapeLike_between_percents (term : string) (ts : list like_token) :
  (forall whole tail,
     parse_like whole (term ++ tail)
     = bind (parse_like whole tail) (fun rest => Ok (ts ++ rest))) ->
  escapeLike ("%" ++ term ++ "%") = Ok (AnyString :: ts ++ [AnyString]).
Proof.
  intros H. unfold escapeLike. cbn [append parse_like].
  replace (is_escape "%") with false by reflexivity.
  replace (is_underscore "%") with false by reflexivity.
  replace (is_percent "%") with true by reflexivity.
  cbv iota. now rewrite H.
Qed.

End Wildcards.

(** X20: a term made of percent signs only is no filter on the text:
    the filter of the Search page keeps, in order, every row that has a
    title or an author, as it would for the empty term. *)
Theorem search_percent_keeps_all (E : Engine) (D : Table) (term : string) (i j : nat) :
  only_percent term = true ->
  resolve (t_columns D) "title" = Ok i ->
  resolve (t_columns D) "authors" = Ok j ->
  bind (search_filter E (createDataFrame D) "title" "authors" term) toPandas
  = Ok (mkTable (t_columns D)
          (List.filter (fun r => non_null (cell i r) || non_null (cell j r))
             (t_rows D))).
Proof.
  intros Hp Hi Hj.
  rewrite (search_filter_run E D "title" "authors" term i j _ Hi Hj
             (escapeLike_between_percents term _
                (fun whole tail => parse_like_percents whole term tail Hp))).
  do 2 f_equal. apply filter_ext. intros r.
  rewrite holds_or3_map, <- !(as_string_non_null E).
  f_equal;
    (destruct (as_string E _);
     [rewrite like_match_any_unfold, like_match_percents; reflexivity | reflexivity]).
Qed.

Lemma search_percent_keeps_all_witness :
  bind (search_filter in_order (createDataFrame anonymous) "title" "authors" "%%")
       toPandas
  = Ok (mkTable (t_columns anonymous)
          (List.filter (fun r => non_null (cell 0 r) || non_null (cell 1 r))
             (t_rows anonymous))).
Proof.
  exact (search_percent_keeps_all in_order anonymous "%%" 0 1 eq_refl eq_refl eq_refl).
Defined.


